(** * RPT report files: parser, update engine and writer of [scode.py]

    A shallow embedding of the three functions of [src/scode.py] that carry
    the logic of the script: [read_rpt_file], [write_rpt_file], [smart_match]
    and [apply_updates], followed by the properties of the specification
    that are stated about them.

    Modelling conventions.
    - A Python [str] is a list of characters ([list ascii], code points
      below 256); a string literal is coerced by [py].
    - The content of a file is the text that Python's text layer delivers
      ([open(..., 'r')], newlines already translated), and what
      [write_rpt_file] produces is the text handed to that layer.
    - A [pandas.DataFrame] whose cells are strings is a list of column
      names with the list of its rows.  The position of a column is that
      of the first occurrence of its name: the model follows pandas on
      tables whose column names are distinct, as the data model of the
      specification has them.
    - A cell of the table or of the instruction sheet is represented by
      its string form, so that [str(v)] and [astype(str)] change nothing;
      for the strings, integers and floats that the sheet can hold,
      [pd.to_numeric] of a value is [pd.to_numeric] of this string.  A
      cell of the sheet that [pd.notna] rejects is [None].
    - [pandas.to_numeric] is not part of the repository.  It is a parameter
      of the update engine, from strings to an abstract type of numbers
      with a decidable equality; [decimal_to_numeric] is the instance used
      to evaluate examples. *)

From Stdlib Require Import Ascii String Decimal DecimalNat.
From stdpp Require Import gmap strings list.

Open Scope string_scope.
Open Scope list_scope.

Abbreviation str := (list ascii).

(** String literals denote Python strings. *)
Definition py (s : string) : str := list_ascii_of_string s.
Coercion py : string >-> list.

Definition newline : ascii := "010"%char.
Definition dquote : ascii := "034"%char.
Definition comma : ascii := ","%char.

(** Test files are written on one line: [|] stands for a newline and [']
    for a double quote. *)
Definition rpt_char (c : ascii) : ascii :=
  if bool_decide (c = "|"%char) then newline
  else if bool_decide (c = "'"%char) then dquote
  else c.
Definition rpt (s : string) : str := rpt_char <$> py s.

(** ** Python string methods *)

(** [str.isspace] on one character, for code points below 256. *)
Definition isspace (c : ascii) : bool :=
  let n := nat_of_ascii c in
  (((9 <=? n) && (n <=? 13)) || ((28 <=? n) && (n <=? 32))
   || (n =? 133) || (n =? 160))%nat.

Fixpoint lstrip (p : ascii → bool) (s : str) : str :=
  match s with
  | c :: s' => if p c then lstrip p s' else s
  | [] => []
  end.

Definition rstrip (p : ascii → bool) (s : str) : str :=
  reverse (lstrip p (reverse s)).

Definition strip_with (p : ascii → bool) (s : str) : str :=
  rstrip p (lstrip p s).

(** [s.strip()] *)
Definition strip (s : str) : str := strip_with isspace s.

(** [s.strip(chars)] *)
Definition strip_chars (chars : str) (s : str) : str :=
  strip_with (λ c, bool_decide (c ∈ chars)) s.

(** [s.startswith(prefix)] *)
Fixpoint startswith (s prefix : str) {struct prefix} : bool :=
  match prefix, s with
  | [], _ => true
  | p :: prefix', c :: s' => bool_decide (c = p) && startswith s' prefix'
  | _ :: _, [] => false
  end.

(** [s.endswith(suffix)] *)
Definition endswith (s suffix : str) : bool :=
  startswith (reverse s) (reverse suffix).

(** [s.split(sep)] for a one-character separator: always at least one
    field. *)
Fixpoint split (sep : ascii) (s : str) : list str :=
  match s with
  | [] => [[]]
  | c :: s' =>
      if bool_decide (c = sep) then [] :: split sep s'
      else match split sep s' with
           | f :: fs => (c :: f) :: fs
           | [] => [[c]]
           end
  end.

(** [s.split()]: the maximal runs of non-whitespace characters. *)
Fixpoint split_whitespace (s : str) : list str :=
  match s with
  | [] => []
  | c :: s' =>
      if isspace c then split_whitespace s'
      else match s' with
           | [] => [[c]]
           | d :: _ =>
               if isspace d then [c] :: split_whitespace s'
               else match split_whitespace s' with
                    | t :: ts => (c :: t) :: ts
                    | [] => [[c]]
                    end
           end
  end.

(** [sep.join(l)] *)
Fixpoint join (sep : str) (l : list str) : str :=
  match l with
  | [] => []
  | [x] => x
  | x :: l' => x ++ sep ++ join sep l'
  end.

(** [f.readlines()]: every line keeps its newline; the last line may lack
    one. *)
Fixpoint readlines (s : str) : list str :=
  match s with
  | [] => []
  | c :: s' =>
      if bool_decide (c = newline) then [c] :: readlines s'
      else match readlines s' with
           | l :: ls => (c :: l) :: ls
           | [] => [[c]]
           end
  end.

(** [str(n)] for a natural number. *)
Fixpoint str_of_uint (d : uint) : str :=
  match d with
  | Nil => []
  | D0 d => "0"%char :: str_of_uint d
  | D1 d => "1"%char :: str_of_uint d
  | D2 d => "2"%char :: str_of_uint d
  | D3 d => "3"%char :: str_of_uint d
  | D4 d => "4"%char :: str_of_uint d
  | D5 d => "5"%char :: str_of_uint d
  | D6 d => "6"%char :: str_of_uint d
  | D7 d => "7"%char :: str_of_uint d
  | D8 d => "8"%char :: str_of_uint d
  | D9 d => "9"%char :: str_of_uint d
  end.

Definition str_of_nat (n : nat) : str := str_of_uint (Nat.to_uint n).

(** ** Data model *)

(** A table of strings: [columns] is [df.columns]; [rows] lists the rows in
    index order, as [df.iterrows()] yields them. *)
Record DataFrame := mkDataFrame {
  columns : list str;
  rows : list (list str)
}.

(** [pd.DataFrame()] *)
Definition empty_frame : DataFrame := mkDataFrame [] [].

(** [pd.DataFrame(all_data, columns=columns)] *)
Definition frame_of (all_data : list (list str)) (cols : list str) : DataFrame :=
  mkDataFrame cols all_data.

Inductive exn := TypeError.

(** Result of a computation that may raise. *)
Inductive res (A : Type) :=
| Ok (a : A)
| Raise (e : exn).
Arguments Ok {A} a.
Arguments Raise {A} e.

#[global] Instance res_bind : MBind res := λ A B k m,
  match m with
  | Ok a => k a
  | Raise e => Raise e
  end.

(** ** [read_rpt_file] *)

(** What [read_rpt_file] hands back: the early return gives four
    components, the final returns give five. *)
Inductive parsed :=
| Returned4 (df : DataFrame) (header_line : option str)
    (footer_lines : list str) (columns_with_quotes : gset str)
| Returned5 (df : DataFrame) (header_line : option str)
    (footer_lines : list str) (columns_with_quotes : gset str)
    (column_marker : option str).

(** The local variables that the parsing loop updates. *)
Record parse_state := mkParseState {
  st_all_data : list (list str);
  st_columns : option (list str);
  st_quotes : gset str;
  st_marker : option str;
  st_first_data_row : bool
}.

Definition initial_state : parse_state :=
  mkParseState [] None ∅ None true.

(** [for i, line in enumerate(lines): if line.strip().startswith('##')] *)
Definition is_footer_start (line : str) : bool :=
  startswith (strip line) "##".

Fixpoint find_footer_start (i : nat) (lines : list str) : option nat :=
  match lines with
  | [] => None
  | line :: lines' =>
      if is_footer_start line then Some i
      else find_footer_start (S i) lines'
  end.

(** [p.startswith(q) and p.endswith(q)] on the stripped field, [q] the
    double quote. *)
Definition quote_wrapped (p : str) : bool :=
  let p := strip p in
  startswith p [dquote] && endswith p [dquote].

(** The loop over [enumerate(parts[1:])] on the first data row.
    [len(columns)] is only evaluated for a quote-wrapped field, and raises
    [TypeError] when [columns] is still [None]. *)
Fixpoint track_quotes (i : nat) (fields : list str)
    (cols : option (list str)) (quotes : gset str) : res (gset str) :=
  match fields with
  | [] => Ok quotes
  | p :: fields' =>
      if quote_wrapped p then
        match cols with
        | None => Raise TypeError
        | Some cs =>
            match cs !! i with
            | Some c => track_quotes (S i) fields' cols ({[c]} ∪ quotes)
            | None => track_quotes (S i) fields' cols quotes
            end
        end
      else track_quotes (S i) fields' cols quotes
  end.

(** [[p.strip(q) for p in parts[1:]]], [q] the double quote. *)
Definition row_data_of (parts : list str) : list str :=
  strip_chars [dquote] <$> tail parts.

(** [[p.strip('!').strip() for p in parts]] *)
Definition col_parts_of (parts : list str) : list str :=
  (λ p, strip (strip_chars "!" p)) <$> parts.

(** [row_data and columns and len(row_data) == len(columns)] *)
Definition row_accepted (row_data : list str) (cols : option (list str)) : bool :=
  match row_data, cols with
  | _ :: _, Some (c :: cs) => (length row_data =? length (c :: cs))%nat
  | _, _ => false
  end.

(** One iteration of [for line in data_lines]. *)
Definition parse_line (st : parse_state) (line : str) : res parse_state :=
  let line := strip line in
  if bool_decide (line = []) || startswith line "#" then Ok st
  else
    let parts := split comma line in
    let parts0 := hd [] parts in
    if bool_decide (st_columns st = None) && startswith parts0 "!" then
      match col_parts_of parts with
      | m :: cs =>
          Ok (mkParseState (st_all_data st) (Some cs) (st_quotes st)
                (Some m) (st_first_data_row st))
      | [] => Ok st
      end
    else if startswith parts0 "*" then
      quotes ← (if st_first_data_row st
                then track_quotes 0 (tail parts) (st_columns st) (st_quotes st)
                else Ok (st_quotes st));
      let row_data := row_data_of parts in
      let all_data :=
        if row_accepted row_data (st_columns st)
        then st_all_data st ++ [row_data]
        else st_all_data st in
      Ok (mkParseState all_data (st_columns st) quotes (st_marker st) false)
    else Ok st.

Fixpoint parse_lines (st : parse_state) (data_lines : list str) : res parse_state :=
  match data_lines with
  | [] => Ok st
  | line :: data_lines' =>
      st' ← parse_line st line;
      parse_lines st' data_lines'
  end.

(** [if all_data and columns: pd.DataFrame(all_data, columns=columns)
     else: pd.DataFrame()] *)
Definition build_frame (st : parse_state) : DataFrame :=
  match st_all_data st, st_columns st with
  | _ :: _, Some (c :: cs) => frame_of (st_all_data st) (c :: cs)
  | _, _ => empty_frame
  end.

(** [footer_lines]: [lines[footer_start:]], or nothing. *)
Definition footer_of (lines : list str) : list str :=
  match find_footer_start 0 lines with
  | Some i => drop i lines
  | None => []
  end.

(** [data_lines]: [lines[1:footer_start]], or [lines[1:]]. *)
Definition data_lines_of (lines : list str) : list str :=
  match find_footer_start 0 lines with
  | Some i => drop 1 (take i lines)
  | None => drop 1 lines
  end.

(** [read_rpt_file] on the content of the file. *)
Definition read_rpt_file (content : str) : res parsed :=
  let lines := readlines content in
  let header_line := head lines in
  if (length lines <=? 1)%nat then Ok (Returned4 empty_frame header_line [] ∅)
  else
    let footer_lines := footer_of lines in
    let data_lines := data_lines_of lines in
    st ← parse_lines initial_state data_lines;
    Ok (Returned5 (build_frame st) header_line footer_lines
          (st_quotes st) (st_marker st)).

(** ** [write_rpt_file] *)

(** The header: its first token replaced by the column count, or the line
    as it is when it has no token. *)
Definition write_header (df : DataFrame) (header_line : option str) : str :=
  match header_line with
  | Some (c :: h) =>
      match split_whitespace (strip (c :: h)) with
      | _ :: parts => join " " (str_of_nat (length (columns df)) :: parts) ++ [newline]
      | [] => c :: h
      end
  | _ => []
  end.

(** [if column_marker:] holds for a marker that is neither [None] nor
    empty. *)
Definition write_col_line (df : DataFrame) (column_marker : option str) : str :=
  match column_marker with
  | Some (c :: m) => "!" ++ (c :: m) ++ "," ++ join "," (columns df)
  | _ => "!" ++ join "," (columns df)
  end.

Definition format_value (quotes : gset str) (col_name val : str) : str :=
  if bool_decide (col_name ∈ quotes) then [dquote] ++ val ++ [dquote]
  else val.

Definition write_data_line (df : DataFrame) (quotes : gset str) (row : list str) : str :=
  "*," ++ join "," (zip_with (format_value quotes) (columns df) row).

(** The text that [write_rpt_file] writes to the output file. *)
Definition write_rpt_file (df : DataFrame) (header_line : option str)
    (footer_lines : list str) (columns_with_quotes : gset str)
    (column_marker : option str) : str :=
  write_header df header_line
  ++ write_col_line df column_marker ++ [newline]
  ++ concat ((λ row, write_data_line df columns_with_quotes row ++ [newline]) <$> rows df)
  ++ [newline]
  ++ concat footer_lines.

(** ** [smart_match] and [apply_updates] *)

(** The value of [pd.to_numeric] on a string that it accepts: a number, or
    the float [nan]. *)
Inductive numeric (num : Type) :=
| NaN
| Num (x : num).
Arguments NaN {num}.
Arguments Num {num} x.

(** One row of the instruction table.  A field that [pd.notna] rejects
    (an empty cell of the sheet) is [None]. *)
Record instruction := mkInstruction {
  Action : str;
  ColumnName : str;
  NewValue : str;
  LookupColumn : option str;
  LookupValue : option str;
  CurrentValue : option str
}.

(** [c in df.columns] *)
Definition has_column (df : DataFrame) (c : str) : bool :=
  bool_decide (c ∈ columns df).

(** Position of column [c]. *)
Definition col_index (df : DataFrame) (c : str) : option nat :=
  fst <$> list_find (λ x, x = c) (columns df).

(** [df[c]]: the cells of column [c], one per row. *)
Definition get_column (df : DataFrame) (c : str) : list str :=
  match col_index df c with
  | Some i => (λ row, default [] (row !! i)) <$> rows df
  | None => []
  end.

(** [df[c] = v] for a scalar [v]: an existing column is overwritten in
    place, a new one is appended as last column. *)
Definition set_column (df : DataFrame) (c v : str) : DataFrame :=
  match col_index df c with
  | Some i => mkDataFrame (columns df) ((λ row, <[i:=v]> row) <$> rows df)
  | None => mkDataFrame (columns df ++ [c]) ((λ row, row ++ [v]) <$> rows df)
  end.

(** [df.drop(columns=[c])] for a column that exists. *)
Definition drop_column (df : DataFrame) (c : str) : DataFrame :=
  match col_index df c with
  | Some i => mkDataFrame (delete i (columns df)) ((λ row, delete i row) <$> rows df)
  | None => df
  end.

(** [df.loc[mask, c] = v] *)
Definition loc_set (df : DataFrame) (mask : list bool) (c v : str) : DataFrame :=
  match col_index df c with
  | Some i =>
      mkDataFrame (columns df)
        (zip_with (λ row (b : bool), if b then <[i:=v]> row else row) (rows df) mask)
  | None => df
  end.

(** [mask1 & mask2] *)
Definition mask_and (m1 m2 : list bool) : list bool := zip_with andb m1 m2.

Section engine.
Context {num : Type} {Hnum : EqDecision num}.

(** [pd.to_numeric] on one string; [None] when it raises [ValueError]. *)
Variable to_numeric : str → option (numeric num).

(** [pd.to_numeric(series, errors='coerce')] *)
Definition to_numeric_coerce (series : list str) : list (numeric num) :=
  (λ v, default NaN (to_numeric v)) <$> series.

Definition notna (x : numeric num) : bool :=
  match x with
  | NaN => false
  | Num _ => true
  end.

(** [==] on numeric values: [nan] equals nothing. *)
Definition numeric_eqb (x y : numeric num) : bool :=
  match x, y with
  | Num a, Num b => bool_decide (a = b)
  | _, _ => false
  end.

(** [series.astype(str) == str(target_value)] *)
Definition string_eq_mask (series : list str) (target_value : str) : list bool :=
  (λ v, bool_decide (v = target_value)) <$> series.

Definition smart_match (series : list str) (target_value : str) : list bool :=
  match to_numeric target_value with
  | Some target_numeric =>
      let series_numeric := to_numeric_coerce series in
      let valid_numeric := notna <$> series_numeric in
      let numeric_mask := (λ x, numeric_eqb x target_numeric) <$> series_numeric in
      let string_mask := string_eq_mask series target_value in
      zip_with (λ (valid : bool) '(n, s), if valid then n else s)
        valid_numeric (zip numeric_mask string_mask)
  | None => string_eq_mask series target_value
  end.

(** Body of the loop over [add_actions]. *)
Definition apply_add (st : DataFrame * gset str) (row : instruction)
    : DataFrame * gset str :=
  let '(rpt_data, columns_with_quotes) := st in
  let column_name := ColumnName row in
  let new_value := NewValue row in
  let rpt_data := set_column rpt_data column_name new_value in
  let columns_with_quotes :=
    match to_numeric new_value with
    | Some _ => columns_with_quotes
    | None => {[column_name]} ∪ columns_with_quotes
    end in
  (rpt_data, columns_with_quotes).

(** Body of the loop over [delete_actions]. *)
Definition apply_delete (rpt_data : DataFrame) (row : instruction) : DataFrame :=
  let column_name := ColumnName row in
  if has_column rpt_data column_name then drop_column rpt_data column_name
  else rpt_data.

(** Body of the loop over [update_actions]. *)
Definition apply_update (rpt_data : DataFrame) (row : instruction) : DataFrame :=
  let column_name := ColumnName row in
  let new_value := NewValue row in
  if negb (has_column rpt_data column_name) then rpt_data
  else
    match LookupColumn row, LookupValue row, CurrentValue row with
    | Some lookup_column, Some lookup_value, Some current_value =>
        if has_column rpt_data lookup_column then
          let mask :=
            mask_and (smart_match (get_column rpt_data lookup_column) lookup_value)
                     (smart_match (get_column rpt_data column_name) current_value) in
          loc_set rpt_data mask column_name new_value
        else rpt_data
    | Some lookup_column, Some lookup_value, None =>
        if has_column rpt_data lookup_column then
          let mask := smart_match (get_column rpt_data lookup_column) lookup_value in
          loc_set rpt_data mask column_name new_value
        else rpt_data
    | _, _, Some current_value =>
        let mask := smart_match (get_column rpt_data column_name) current_value in
        loc_set rpt_data mask column_name new_value
    | _, _, None => set_column rpt_data column_name new_value
    end.

(** [update_values_df[update_values_df['Action'] == name]] *)
Definition actions (name : str) (update_values_df : list instruction)
    : list instruction :=
  filter (λ row, Action row = name) update_values_df.

(** [apply_updates]: the table it returns, and the set
    [columns_with_quotes] as the calls to [add] leave it.  The tests
    [if not ... .empty] are left out: a loop over an empty selection does
    nothing. *)
Definition apply_updates (rpt_data : DataFrame)
    (update_values_df : list instruction) (columns_with_quotes : gset str)
    : DataFrame * gset str :=
  let add_actions := actions "add" update_values_df in
  let '(rpt_data, columns_with_quotes) :=
    foldl apply_add (rpt_data, columns_with_quotes) add_actions in
  let delete_actions := actions "delete" update_values_df in
  let rpt_data := foldl apply_delete rpt_data delete_actions in
  let update_actions := actions "update" update_values_df in
  let rpt_data := foldl apply_update rpt_data update_actions in
  (rpt_data, columns_with_quotes).
End engine.

(** ** A numeric parser for examples *)

Definition digit_value (c : ascii) : option Z :=
  let n := nat_of_ascii c in
  if ((48 <=? n) && (n <=? 57))%nat then Some (Z.of_nat (n - 48)) else None.

Fixpoint digits_value (acc : Z) (s : str) : option Z :=
  match s with
  | [] => Some acc
  | c :: s' =>
      match digit_value c with
      | Some d => digits_value (10 * acc + d) s'
      | None => None
      end
  end.

(** Decimal integer literals, with an optional sign: on these
    [pd.to_numeric] returns the integer; everything else is rejected
    here. *)
Definition decimal_to_numeric (s : str) : option (numeric Z) :=
  match s with
  | [] => None
  | c :: s' =>
      if bool_decide (c = "-"%char) then
        match s' with
        | [] => None
        | _ => (λ z, Num (- z)%Z) <$> digits_value 0 s'
        end
      else if bool_decide (c = "+"%char) then
        match s' with
        | [] => None
        | _ => Num <$> digits_value 0 s'
        end
      else Num <$> digits_value 0 s
  end.

(** ** The specification's reading of the update engine *)

Section engine_spec.
Context {num : Type} {Hnum : EqDecision num}.
Variable to_numeric : str → option (numeric num).

(** The number that a value parses as.  A value that [pd.to_numeric]
    rejects, or reads as [nan], does not parse as a number. *)
Definition number_of (v : str) : option num :=
  match to_numeric v with
  | Some (Num x) => Some x
  | _ => None
  end.

(** The match predicate of the specification, on one cell. *)
Definition spec_match (target v : str) : bool :=
  match number_of target with
  | Some t =>
      match number_of v with
      | Some x => bool_decide (x = t)
      | None => bool_decide (v = target)
      end
  | None => bool_decide (v = target)
  end.

(** The cell of row [r] in column [c]. *)
Definition cell (df : DataFrame) (r : list str) (c : str) : str :=
  default [] (i ← col_index df c; r !! i).

(** Row [r] with its cell in column [c] set to [v]. *)
Definition set_cell (df : DataFrame) (r : list str) (c v : str) : list str :=
  match col_index df c with
  | Some i => <[i:=v]> r
  | None => r
  end.

(** The table in which exactly the rows that [sel] selects get the
    instruction's [NewValue] in its target column. *)
Definition update_rows (df : DataFrame) (row : instruction)
    (sel : list str → bool) : DataFrame :=
  mkDataFrame (columns df)
    ((λ r, if sel r then set_cell df r (ColumnName row) (NewValue row) else r)
       <$> rows df).

(** The instruction table read one row after the other. *)
Definition run_instruction (st : DataFrame * gset str) (row : instruction)
    : DataFrame * gset str :=
  if bool_decide (Action row = "add") then apply_add to_numeric st row
  else if bool_decide (Action row = "delete") then (apply_delete st.1 row, st.2)
  else if bool_decide (Action row = "update") then (apply_update to_numeric st.1 row, st.2)
  else st.

(** The instructions grouped by kind, each group in table order. *)
Definition grouped (update_values_df : list instruction) : list instruction :=
  actions "add" update_values_df ++ actions "delete" update_values_df
  ++ actions "update" update_values_df.

(** The columns that [add] instructions give a value failing numeric
    coercion. *)
Definition added_string_columns (update_values_df : list instruction) : gset str :=
  list_to_set
    (ColumnName <$>
       filter (λ row, Action row = "add" ∧ to_numeric (NewValue row) = None)
         update_values_df).
End engine_spec.

(** ** Vocabulary for the text format *)

(** Every character of [s] satisfies [p]. *)
Abbreviation all_chars p s := (Forall (λ c : ascii, p c = true) s).

(** Neither the first nor the last character of [s] satisfies [p]: the
    strings that stripping by [p] leaves as they are. *)
Definition trimmed (p : ascii → bool) (s : str) : Prop :=
  (∀ c, head s = Some c → p c = false) ∧ (∀ c, last s = Some c → p c = false).

(** The characters that [p.strip(q)], [q] the double quote, and
    [p.strip('!')] remove. *)
Definition is_quote (c : ascii) : bool := bool_decide (c ∈ [dquote]).
Definition is_bang (c : ascii) : bool := bool_decide (c ∈ py "!").

(** A line that ends in its only newline, and a last line without one. *)
Definition terminated (l : str) : Prop :=
  ∃ body, l = body ++ [newline] ∧ Forall (λ c, c ≠ newline) body.
Definition unterminated (l : str) : Prop :=
  l ≠ [] ∧ Forall (λ c, c ≠ newline) l.

(** The lists of lines that [readlines] produces. *)
Inductive proper_lines : list str → Prop :=
| proper_nil : proper_lines []
| proper_last l : unterminated l → proper_lines [l]
| proper_cons l ls : terminated l → proper_lines ls → proper_lines (l :: ls).

(** The fields of a line, and the three kinds of lines that the parsing
    loop tells apart. *)
Definition line_parts (line : str) : list str := split comma (strip line).

Definition skipped (line : str) : bool :=
  bool_decide (strip line = []) || startswith (strip line) "#".

Definition is_declaration (line : str) : bool :=
  negb (skipped line) && startswith (hd [] (line_parts line)) "!".

Definition is_data_line (line : str) : bool :=
  negb (skipped line) && startswith (hd [] (line_parts line)) "*".

(** The first column-declaration line, the lines before it and the lines
    after it. *)
Fixpoint declaration_line (l : list str) : option str :=
  match l with
  | [] => None
  | line :: l' => if is_declaration line then Some line else declaration_line l'
  end.

Fixpoint before_declaration (l : list str) : list str :=
  match l with
  | [] => []
  | line :: l' => if is_declaration line then [] else line :: before_declaration l'
  end.

Fixpoint after_declaration (l : list str) : list str :=
  match l with
  | [] => []
  | line :: l' => if is_declaration line then l' else after_declaration l'
  end.

Definition declared_marker (d : str) : str := hd [] (col_parts_of (line_parts d)).
Definition declared_columns (d : str) : list str := tail (col_parts_of (line_parts d)).

Definition first_data_line (l : list str) : option str :=
  head (filter (λ line, is_data_line line = true) l).

(** The values of a data line. *)
Definition line_values (line : str) : list str := row_data_of (line_parts line).

(** A data line has a quote-wrapped value. *)
Definition has_quoted_value (line : str) : bool :=
  existsb quote_wrapped (tail (line_parts line)).

(** The columns whose value in the given fields is quote-wrapped. *)
Definition quoted_columns (cols fields : list str) : gset str :=
  list_to_set (fst <$> filter (λ cp, quote_wrapped cp.2 = true) (zip cols fields)).

(** The rows that the loop keeps among the lines [l] once [cols] is
    declared. *)
Definition accepted_rows (cols : list str) (l : list str) : list (list str) :=
  line_values <$>
    filter (λ line, is_data_line line = true
                    ∧ row_accepted (line_values line) (Some cols) = true) l.

(** The state of the loop after the lines [l], but for the set of quoted
    columns and the flag of the first data row: the declared columns and
    marker, and the rows kept after the declaration. *)
Definition declared_state (l : list str) (quotes : gset str) (first : bool)
    : parse_state :=
  match declaration_line l with
  | Some d =>
      mkParseState (accepted_rows (declared_columns d) (after_declaration l))
        (Some (declared_columns d)) quotes (Some (declared_marker d)) first
  | None => mkParseState [] None quotes None first
  end.

(** The columns quoted in the first data row: the declared columns whose
    value in that row is quote-wrapped; none when a data line comes before
    the declaration, or when there is no data line. *)
Definition first_row_quotes (l : list str) : gset str :=
  match first_data_line (before_declaration l), declaration_line l with
  | None, Some d =>
      match first_data_line (after_declaration l) with
      | Some line => quoted_columns (declared_columns d) (tail (line_parts line))
      | None => ∅
      end
  | _, _ => ∅
  end.

(** What the parsing loop computes, told from the position of the
    declaration line: a data line met before it stops the parser when one
    of its values is quote-wrapped, and is ignored otherwise. *)
Definition parse_outcome (l : list str) : res parse_state :=
  match first_data_line (before_declaration l) with
  | Some line =>
      if has_quoted_value line then Raise TypeError
      else Ok (declared_state l ∅ false)
  | None =>
      Ok (declared_state l (first_row_quotes l)
            (bool_decide (first_data_line (after_declaration l) = None)))
  end.

(** The lines of a file between its header and its footer. *)
Definition candidate_lines (content : str) : list str :=
  data_lines_of (readlines content).

Definition table_of (p : parsed) : DataFrame :=
  match p with
  | Returned4 df _ _ _ => df
  | Returned5 df _ _ _ _ => df
  end.

Definition quotes_of (p : parsed) : gset str :=
  match p with
  | Returned4 _ _ _ q => q
  | Returned5 _ _ _ q _ => q
  end.

Definition footer_lines_of (p : parsed) : list str :=
  match p with
  | Returned4 _ _ f _ => f
  | Returned5 _ _ f _ _ => f
  end.

(** The parser meets, before any column declaration, a first data line
    with a quote-wrapped value. *)
Definition stops_early (content : str) : bool :=
  (2 <=? length (readlines content))%nat
  && match first_data_line (before_declaration (candidate_lines content)) with
     | Some line => has_quoted_value line
     | None => false
     end.

(** The values of the data lines that follow the declaration of at least
    one column and have as many values as columns are declared. *)
Definition counted_rows (content : str) : list (list str) :=
  let l := candidate_lines content in
  match declaration_line l with
  | Some d =>
      match declared_columns d with
      | [] => []
      | cols =>
          line_values <$>
            filter (λ line, is_data_line line = true
                            ∧ length (line_values line) = length cols)
              (after_declaration l)
      end
  | None => []
  end.

(** The same count over all the data lines of the file, whatever their
    place and the number of declared columns. *)
Definition counted_rows_anywhere (content : str) : list (list str) :=
  let l := candidate_lines content in
  match declaration_line l with
  | Some d =>
      line_values <$>
        filter (λ line, is_data_line line = true
                        ∧ length (line_values line) = length (declared_columns d)) l
  | None => []
  end.

(** A field without one pair of wrapping double quotes. *)
Definition strip_one_pair (p : str) : str :=
  if startswith p [dquote] && endswith p [dquote] && (2 <=? length p)%nat
  then take (length p - 2) (drop 1 p)
  else p.

Section quoting_spec.
Context {num : Type} {Hnum : EqDecision num}.
Variable to_numeric : str → option (numeric num).

(** The columns that [add] or [update] instructions give a value failing
    numeric coercion. *)
Definition added_or_updated_string_columns
    (update_values_df : list instruction) : gset str :=
  list_to_set
    (ColumnName <$>
       filter (λ row, (Action row = "add" ∨ Action row = "update")
                      ∧ to_numeric (NewValue row) = None)
         update_values_df).
End quoting_spec.

(** A file of the format whose second row ends in a quoted value with a
    trailing space, under a column that the first row leaves unquoted. *)
Definition trailing_space_file : str := rpt "1 hdr|!1,A|*,x|*,'a '|".

(** Two files outside the format: a declaration without marker, and a
    column name that keeps an exclamation mark. *)
Definition no_marker_file : str := rpt "2 hdr|!,A,B|*,x,y|".
Definition bang_name_file : str := rpt "1 hdr|!1, !A|*,x|".

(** The file of the specification's concrete scenario. *)
Definition scenario : str :=
  rpt "3 demo|!1,CODE,NAME,AMT|*,5,'Alice',100|*,6,'Bob',200|## end|".

Definition scenario_table : DataFrame :=
  mkDataFrame (py <$> ["CODE"; "NAME"; "AMT"])
    [py <$> ["5"; "Alice"; "100"]; py <$> ["6"; "Bob"; "200"]].

(** ** Vocabulary for the round trip *)

(** The lines that [write_rpt_file] writes, one after the other. *)
Definition written_lines (df : DataFrame) (header_line : option str)
    (footer_lines : list str) (columns_with_quotes : gset str)
    (column_marker : option str) : list str :=
  [write_header df header_line; write_col_line df column_marker ++ [newline]]
  ++ ((λ row, write_data_line df columns_with_quotes row ++ [newline]) <$> rows df)
  ++ [[newline]] ++ footer_lines.

(** [trimmed], as a test. *)
Definition trimmedb (p : ascii → bool) (s : str) : bool :=
  match head s with Some c => negb (p c) | None => true end
  && match last s with Some c => negb (p c) | None => true end.

(** The shape of a file of the format: a column-declaration line comes
    before every data line, its marker is not empty, and no column name
    starts or ends with an exclamation mark.  Nothing is asked of the
    header, of comments, of the number of values in a data line, or of the
    footer. *)
Definition well_formed (content : str) : bool :=
  let l := candidate_lines content in
  match declaration_line l with
  | Some d =>
      bool_decide (first_data_line (before_declaration l) = None)
      && negb (bool_decide (declared_marker d = []))
      && forallb (trimmedb is_bang) (declared_columns d)
  | None => false
  end.

(** The last value of a row is written as it was read: its column is
    quoted, or the value does not end in whitespace. *)
Definition last_value_kept (quotes : gset str) (cols row : list str) : bool :=
  match last cols, last row with
  | Some c, Some v =>
      bool_decide (c ∈ quotes)
      || match last v with Some x => negb (isspace x) | None => true end
  | _, _ => true
  end.

Definition last_values_kept (content : str) : bool :=
  match read_rpt_file content with
  | Ok p =>
      forallb (last_value_kept (quotes_of p) (columns (table_of p)))
        (rows (table_of p))
  | Raise _ => true
  end.

Definition is_digit (c : ascii) : bool := bool_decide (c ∈ py "0123456789").

(** A field of a line: no comma and no newline in it. *)
Definition clean (s : str) : Prop :=
  Forall (λ c, c ≠ comma ∧ c ≠ newline) s.

(** What the parser yields on the lines of a file: names and values
    without comma or newline, stripped as the parser strips them. *)
Definition good_name (c : str) : Prop :=
  clean c ∧ trimmed isspace c ∧ trimmed is_bang c.

Definition good_value (v : str) : Prop :=
  clean v ∧ trimmed is_quote v.

Definition good_row (q : gset str) (cols row : list str) : Prop :=
  length row = length cols ∧ Forall good_value row
  ∧ last_value_kept q cols row = true.

(** The lines written before the footer: each ends in its only newline
    and none starts the footer. *)
Definition body_line (l : str) : Prop :=
  terminated l ∧ is_footer_start l = false.

(** Update instructions on [AMT], one per combination of optional
    fields. *)
Definition update_where (lookup_column lookup_value current_value : option str)
    : instruction :=
  mkInstruction "update" "AMT" "999" lookup_column lookup_value current_value.

(** ** Vocabulary for the further properties *)

(** Every row has one cell per column. *)
Definition rectangular (df : DataFrame) : Prop :=
  Forall (λ r, length r = length (columns df)) (rows df).

(** No newline in a string, in the names and in the cells of a table. *)
Definition one_line (s : str) : Prop := Forall (λ c, c ≠ newline) s.

Definition one_line_table (df : DataFrame) : Prop :=
  Forall one_line (columns df) ∧ Forall (Forall one_line) (rows df).

(** The column names once the [add] rows of a sheet are read in order: a
    name that is no column yet goes last, a name that is one stays where
    it is. *)
Definition added_columns (cols : list str) (update_values_df : list instruction)
    : list str :=
  foldl (λ cs row, if bool_decide (ColumnName row ∈ cs) then cs
                   else cs ++ [ColumnName row])
    cols (actions "add" update_values_df).

(** The column names of the [delete] rows of a sheet. *)
Definition deleted_columns (update_values_df : list instruction) : list str :=
  ColumnName <$> actions "delete" update_values_df.

(** ** The main script *)

(** What stops the script: the [TypeError] of the parser, or the
    [ValueError] of unpacking four components into five names. *)
Inductive script_exn := ParserTypeError | UnpackValueError.

Inductive outcome :=
| Written (text : str)
| Aborted (e : script_exn).

Section script.
Context {num : Type} {Hnum : EqDecision num}.
Variable to_numeric : str → option (numeric num).

(** Body of the loop [for source_file in rpt_files], on the content of the
    file: the text written to the output file, or the exception.
    [update_values_df] is [None] when there is no instruction sheet
    ([has_excel] false). *)
Definition process_file (update_values_df : option (list instruction))
    (content : str) : outcome :=
  match read_rpt_file content with
  | Raise TypeError => Aborted ParserTypeError
  | Ok (Returned4 _ _ _ _) => Aborted UnpackValueError
  | Ok (Returned5 rpt_data header_line footer_lines columns_with_quotes
          column_marker) =>
      let '(rpt_data, columns_with_quotes) :=
        match update_values_df with
        | Some instructions =>
            apply_updates to_numeric rpt_data instructions columns_with_quotes
        | None => (rpt_data, columns_with_quotes)
        end in
      Written (write_rpt_file rpt_data header_line footer_lines
                 columns_with_quotes column_marker)
  end.

(** The loop over the files: the texts written, in order, and the
    exception that ended the run, if any. *)
Fixpoint run (update_values_df : option (list instruction))
    (files : list str) : list str * option script_exn :=
  match files with
  | [] => ([], None)
  | content :: files' =>
      match process_file update_values_df content with
      | Written text =>
          let '(texts, e) := run update_values_df files' in (text :: texts, e)
      | Aborted e => ([], Some e)
      end
  end.
End script.

(** * Properties *)

(** Unfold the string literals of the goal and of the hypotheses. *)
Ltac py_lit := cbv [py list_ascii_of_string] in *.

Section engine_facts.
Context {num : Type} {Hnum : EqDecision num}.
Variable to_numeric : str → option (numeric num).

Lemma smart_match_elementwise (series : list str) (target : str) :
  smart_match to_numeric series target = spec_match to_numeric target <$> series.
Proof.
  unfold smart_match, spec_match, number_of, string_eq_mask, to_numeric_coerce.
  destruct (to_numeric target) as [[|t]|] eqn:Ht; [| |done].
  - induction series as [|v series IH]; [done|]. cbn. f_equal; [|exact IH].
    destruct (to_numeric v) as [[|x]|] eqn:Hv; cbn; [done| |done].
    symmetry. apply bool_decide_eq_false. intros ->. congruence.
  - induction series as [|v series IH]; [done|]. cbn. f_equal; [|exact IH].
    by destruct (to_numeric v) as [[|x]|].
Qed.

(** The specification's match predicate, case by case. *)
Lemma spec_match_true (target v : str) :
  spec_match to_numeric target v = true
  ↔ match number_of to_numeric target with
    | Some t =>
        number_of to_numeric v = Some t
        ∨ (number_of to_numeric v = None ∧ v = target)
    | None => v = target
    end.
Proof.
  unfold spec_match. destruct (number_of to_numeric target) as [t|].
  - destruct (number_of to_numeric v) as [x|]; rewrite bool_decide_eq_true.
    + split; [intros ->; auto|]. by intros [[= ->]|[? _]].
    + split; [auto|]. by intros [?|[_ ?]].
  - apply bool_decide_eq_true.
Qed.

Lemma smart_match_length (series : list str) (target : str) :
  length (smart_match to_numeric series target) = length series.
Proof. by rewrite smart_match_elementwise, length_fmap. Qed.
End engine_facts.

(** ** The match predicate *)



(** ** Update instructions *)

Lemma has_column_index (df : DataFrame) (c : str) :
  has_column df c = true → ∃ i, col_index df c = Some i.
Proof.
  unfold has_column, col_index. intros Hc%bool_decide_eq_true.
  destruct (list_find_elem_of (λ x, x = c) (columns df) c Hc eq_refl) as [[i x] Hf].
  exists i. by rewrite Hf.
Qed.

Lemma zip_with_mask {A} (f : A → bool → A) (g : A → bool) (l : list A) :
  zip_with f l (g <$> l) = (λ x, f x (g x)) <$> l.
Proof. induction l as [|x l IH]; [done|]. cbn. by rewrite IH. Qed.

(** Setting a cell changes this cell and no other. *)
Lemma cell_set_cell (df : DataFrame) (r : list str) (c v : str) (i : nat) :
  col_index df c = Some i → (i < length r)%nat →
  cell df (set_cell df r c v) c = v.
Proof.
  intros Hi Hlen. unfold cell, set_cell. rewrite Hi. cbn.
  by rewrite list_lookup_insert_eq.
Qed.

Lemma cell_set_cell_other (df : DataFrame) (r : list str) (c c' v : str) :
  col_index df c ≠ col_index df c' →
  cell df (set_cell df r c v) c' = cell df r c'.
Proof.
  intros Hne. unfold cell, set_cell.
  destruct (col_index df c) as [i|]; [|done].
  destruct (col_index df c') as [i'|]; [|done]. cbn.
  rewrite list_lookup_insert_ne; [done|]. by intros ->.
Qed.

Lemma update_rows_none (df : DataFrame) (row : instruction) :
  update_rows df row (λ _, false) = df.
Proof.
  unfold update_rows. destruct df as [cs rs]. cbn. f_equal.
  induction rs as [|r rs IH]; [done|]. cbn. by rewrite IH.
Qed.

Section update_facts.
Context {num : Type} {Hnum : EqDecision num}.
Variable to_numeric : str → option (numeric num).

Lemma loc_set_smart_match (df : DataFrame) (row : instruction) (c target : str) :
  has_column df (ColumnName row) = true →
  has_column df c = true →
  loc_set df (smart_match to_numeric (get_column df c) target)
    (ColumnName row) (NewValue row)
  = update_rows df row (λ r, spec_match to_numeric target (cell df r c)).
Proof.
  intros [j Hj]%has_column_index [i Hi]%has_column_index.
  unfold loc_set, update_rows, get_column, set_cell, cell.
  rewrite Hj, Hi, smart_match_elementwise, <- list_fmap_compose.
  f_equal. apply (zip_with_mask (λ r (b : bool), if b then <[j:=NewValue row]> r else r)).
Qed.

Lemma loc_set_smart_match_and (df : DataFrame) (row : instruction)
    (c1 t1 c2 t2 : str) :
  has_column df (ColumnName row) = true →
  has_column df c1 = true →
  has_column df c2 = true →
  loc_set df
    (mask_and (smart_match to_numeric (get_column df c1) t1)
              (smart_match to_numeric (get_column df c2) t2))
    (ColumnName row) (NewValue row)
  = update_rows df row
      (λ r, spec_match to_numeric t1 (cell df r c1)
            && spec_match to_numeric t2 (cell df r c2)).
Proof.
  intros [j Hj]%has_column_index [i1 Hi1]%has_column_index
    [i2 Hi2]%has_column_index.
  unfold loc_set, update_rows, get_column, set_cell, cell.
  rewrite Hj, Hi1, Hi2, !smart_match_elementwise, <- !list_fmap_compose.
  f_equal. unfold mask_and.
  generalize (rows df). intros rs.
  induction rs as [|r rs IH]; [done|]. cbn. by rewrite IH.
Qed.

Lemma set_column_existing (df : DataFrame) (row : instruction) :
  has_column df (ColumnName row) = true →
  set_column df (ColumnName row) (NewValue row) = update_rows df row (λ _, true).
Proof.
  intros [j Hj]%has_column_index.
  unfold set_column, update_rows, set_cell. by rewrite Hj.
Qed.



(** C10: an update instruction whose [ColumnName] is a column, with
    [LookupColumn] present and both [LookupValue] and [CurrentValue]
    absent, is not skipped: every row gets [NewValue] in the target
    column. *)
Theorem update_lookup_column_alone (df : DataFrame) (row : instruction)
    (lc : str) :
  has_column df (ColumnName row) = true →
  LookupColumn row = Some lc →
  LookupValue row = None →
  CurrentValue row = None →
  apply_update to_numeric df row = update_rows df row (λ _, true).
Proof.
  intros Hcol Hlc Hlv Hcv. unfold apply_update.
  rewrite Hcol, Hlc, Hlv, Hcv. cbn [negb].
  by apply set_column_existing.
Qed.
End update_facts.

(** ** Order of the instructions *)

Section order_facts.
Context {num : Type} {Hnum : EqDecision num}.
Variable to_numeric : str → option (numeric num).

Lemma run_add_actions (st : DataFrame * gset str) (l : list instruction) :
  foldl (run_instruction to_numeric) st (actions "add" l)
  = foldl (apply_add to_numeric) st (actions "add" l).
Proof.
  unfold actions. revert st.
  induction l as [|row l IH]; intros st; [done|].
  rewrite filter_cons. case_decide as Hrow; [|apply IH].
  cbn [foldl]. rewrite <- IH. f_equal.
  unfold run_instruction. by rewrite bool_decide_eq_true_2.
Qed.

Lemma run_delete_actions (st : DataFrame * gset str) (l : list instruction) :
  foldl (run_instruction to_numeric) st (actions "delete" l)
  = (foldl apply_delete st.1 (actions "delete" l), st.2).
Proof.
  unfold actions. revert st.
  induction l as [|row l IH]; intros st; [by destruct st|].
  rewrite filter_cons. case_decide as Hrow; [|apply IH].
  cbn [foldl]. rewrite IH.
  unfold run_instruction. rewrite Hrow. by vm_compute bool_decide.
Qed.

Lemma run_update_actions (st : DataFrame * gset str) (l : list instruction) :
  foldl (run_instruction to_numeric) st (actions "update" l)
  = (foldl (apply_update to_numeric) st.1 (actions "update" l), st.2).
Proof.
  unfold actions. revert st.
  induction l as [|row l IH]; intros st; [by destruct st|].
  rewrite filter_cons. case_decide as Hrow; [|apply IH].
  cbn [foldl]. rewrite IH.
  unfold run_instruction. rewrite Hrow. by vm_compute bool_decide.
Qed.

Lemma actions_app (name : str) (l1 l2 : list instruction) :
  actions name (l1 ++ l2) = actions name l1 ++ actions name l2.
Proof. apply filter_app. Qed.

Lemma actions_same (name : str) (l : list instruction) :
  actions name (actions name l) = actions name l.
Proof.
  unfold actions. induction l as [|row l IH]; [done|].
  rewrite filter_cons. case_decide as Hrow; [|done].
  rewrite filter_cons, decide_True by done. by rewrite IH.
Qed.

Lemma actions_other (name name' : str) (l : list instruction) :
  name ≠ name' → actions name (actions name' l) = [].
Proof.
  intros Hne. unfold actions. induction l as [|row l IH]; [done|].
  rewrite filter_cons. case_decide as Hrow; [|done].
  rewrite filter_cons, decide_False by congruence. done.
Qed.

Lemma actions_grouped (name : str) (l : list instruction) :
  name = "add" ∨ name = "delete" ∨ name = "update" →
  actions name (grouped l) = actions name l.
Proof.
  unfold grouped. rewrite !actions_app.
  intros [-> | [-> | ->]].
  - rewrite actions_same, !(actions_other "add") by done.
    by rewrite !app_nil_r.
  - rewrite actions_same, !(actions_other "delete") by done.
    by rewrite app_nil_r.
  - by rewrite actions_same, !(actions_other "update") by done.
Qed.

(** C6: [apply_updates] gives what reading the instructions one after
    the other gives once they are grouped as all [add] rows, then all
    [delete] rows, then all [update] rows, each group in table order;
    so two instruction tables with the same three groups give the same
    result, however they interleave them. *)
Theorem apply_updates_grouped (rpt_data : DataFrame)
    (update_values_df : list instruction) (columns_with_quotes : gset str) :
  apply_updates to_numeric rpt_data update_values_df columns_with_quotes
  = foldl (run_instruction to_numeric) (rpt_data, columns_with_quotes)
      (grouped update_values_df)
  ∧ ∀ interleaved : list instruction,
      actions "add" interleaved = actions "add" update_values_df →
      actions "delete" interleaved = actions "delete" update_values_df →
      actions "update" interleaved = actions "update" update_values_df →
      apply_updates to_numeric rpt_data interleaved columns_with_quotes
      = apply_updates to_numeric rpt_data update_values_df columns_with_quotes.
Proof.
  split.
  - unfold apply_updates, grouped.
    rewrite !foldl_app, run_add_actions.
    destruct (foldl (apply_add to_numeric) _ _) as [df q].
    by rewrite run_delete_actions, run_update_actions.
  - intros interleaved Hadd Hdelete Hupdate. unfold apply_updates.
    by rewrite Hadd, Hdelete, Hupdate.
Qed.

Lemma apply_add_quotes (st : DataFrame * gset str) (l : list instruction) :
  (foldl (apply_add to_numeric) st (actions "add" l)).2
  = st.2 ∪ added_string_columns to_numeric l.
Proof.
  unfold actions, added_string_columns. revert st.
  induction l as [|row l IH]; intros [df q].
  { cbn. by rewrite (right_id_L ∅ (∪)). }
  rewrite !filter_cons.
  destruct (decide (Action row = "add")) as [Hrow|Hrow].
  - cbn [foldl]. rewrite IH. unfold apply_add.
    destruct (to_numeric (NewValue row)) as [x|] eqn:Hnew.
    + rewrite decide_False by (intros [_ ?]; done). done.
    + rewrite decide_True by done. cbn.
      by rewrite (assoc_L (∪)), (comm_L (∪) _ q).
  - rewrite decide_False by (intros [? _]; done). apply IH.
Qed.

Lemma apply_updates_quotes (rpt_data : DataFrame)
    (update_values_df : list instruction) (columns_with_quotes : gset str) :
  (apply_updates to_numeric rpt_data update_values_df columns_with_quotes).2
  = columns_with_quotes ∪ added_string_columns to_numeric update_values_df.
Proof.
  unfold apply_updates.
  pose proof (apply_add_quotes (rpt_data, columns_with_quotes) update_values_df) as Hq.
  destruct (foldl (apply_add to_numeric) _ _) as [df q]. exact Hq.
Qed.
End order_facts.

(** ** Python string methods *)

Lemma lstrip_all (p : ascii → bool) (s : str) :
  all_chars p s → lstrip p s = [].
Proof. induction 1 as [|c s Hc _ IH]; [done|]. cbn. by rewrite Hc. Qed.

Lemma lstrip_app_all (p : ascii → bool) (l s : str) :
  all_chars p l → lstrip p (l ++ s) = lstrip p s.
Proof. induction 1 as [|c l Hc _ IH]; [done|]. cbn. by rewrite Hc. Qed.

Lemma lstrip_keep (p : ascii → bool) (s : str) :
  (∀ c, head s = Some c → p c = false) → lstrip p s = s.
Proof. destruct s as [|c s]; [done|]. intros Hc. cbn. by rewrite (Hc c). Qed.

Lemma lstrip_spec (p : ascii → bool) (s : str) :
  ∃ l, s = l ++ lstrip p s ∧ all_chars p l
       ∧ ∀ c, head (lstrip p s) = Some c → p c = false.
Proof.
  induction s as [|c s (l & Hs & Hl & Hhd)]; [by exists []|].
  cbn. destruct (p c) eqn:Hc.
  - exists (c :: l). split_and!; [by rewrite Hs at 1|by constructor|done].
  - exists []. split_and!; [done|constructor|]. by intros c' [= <-].
Qed.

Lemma strip_with_unique (p : ascii → bool) (l m r : str) :
  all_chars p l → all_chars p r → trimmed p m →
  strip_with p (l ++ m ++ r) = m.
Proof.
  intros Hl Hr [Hhd Hlast]. unfold strip_with, rstrip.
  rewrite lstrip_app_all by done.
  destruct m as [|x m].
  - cbn. rewrite (lstrip_all p r) by done. done.
  - rewrite (lstrip_keep p ((x :: m) ++ r)) by (intros c [= <-]; by apply Hhd).
    rewrite reverse_app, lstrip_app_all by by apply Forall_reverse.
    rewrite lstrip_keep; [apply reverse_involutive|].
    intros c. rewrite head_reverse. apply Hlast.
Qed.

Lemma strip_with_spec (p : ascii → bool) (s : str) :
  ∃ l r, s = l ++ strip_with p s ++ r ∧ all_chars p l ∧ all_chars p r
         ∧ trimmed p (strip_with p s).
Proof.
  unfold strip_with, rstrip.
  destruct (lstrip_spec p s) as (l & Hs & Hl & Hhd).
  destruct (lstrip_spec p (reverse (lstrip p s))) as (r & Hrev & Hr & Hhd').
  set (s1 := lstrip p s) in *. set (t := lstrip p (reverse s1)) in *.
  assert (s1 = reverse t ++ reverse r) as Hs1.
  { by rewrite <- reverse_app, <- Hrev, reverse_involutive. }
  exists l, (reverse r). split_and!.
  - by rewrite <- Hs1.
  - done.
  - by apply Forall_reverse.
  - split.
    + intros c Hc. apply Hhd. rewrite Hs1, head_app. by rewrite Hc.
    + intros c. rewrite last_reverse. apply Hhd'.
Qed.

Lemma strip_with_trimmed (p : ascii → bool) (s : str) :
  trimmed p (strip_with p s).
Proof. by destruct (strip_with_spec p s) as (l & r & _ & _ & _ & Ht). Qed.

Lemma strip_with_keep (p : ascii → bool) (s : str) :
  trimmed p s → strip_with p s = s.
Proof.
  intros Ht. rewrite <- (strip_with_unique p [] s []) at 2;
    [by rewrite app_nil_r|constructor|constructor|done].
Qed.

Lemma strip_with_snoc (p : ascii → bool) (s : str) (c : ascii) :
  p c = true → strip_with p (s ++ [c]) = strip_with p s.
Proof.
  intros Hc. destruct (strip_with_spec p s) as (l & r & Hs & Hl & Hr & Ht).
  rewrite Hs at 1. rewrite <- !app_assoc.
  apply strip_with_unique; [done| |done].
  apply Forall_app. split; [done|]. by constructor.
Qed.

Lemma strip_with_Forall (P : ascii → Prop) (p : ascii → bool) (s : str) :
  Forall P s → Forall P (strip_with p s).
Proof.
  destruct (strip_with_spec p s) as (l & r & Hs & _). rewrite Hs at 1.
  rewrite !Forall_app. tauto.
Qed.

Lemma startswith_cons (s : str) (c x : ascii) :
  startswith (c :: s) [x] = bool_decide (c = x).
Proof. cbn. apply andb_true_r. Qed.

(** ** The parsing loop *)

Lemma split_nonempty (sep : ascii) (s : str) : split sep s ≠ [].
Proof.
  destruct s as [|c s]; [done|]. cbn.
  case_bool_decide; [done|]. by destruct (split sep s).
Qed.

Lemma track_quotes_no_columns (i : nat) (fields : list str) (quotes : gset str) :
  track_quotes i fields None quotes
  = if existsb quote_wrapped fields then Raise TypeError else Ok quotes.
Proof.
  revert i. induction fields as [|p fields IH]; intros i; [done|].
  cbn. destruct (quote_wrapped p); [done|]. apply IH.
Qed.

Lemma track_quotes_columns (i : nat) (fields cols : list str) (quotes : gset str) :
  track_quotes i fields (Some cols) quotes
  = Ok (quoted_columns (drop i cols) fields ∪ quotes).
Proof.
  unfold quoted_columns. revert i quotes.
  induction fields as [|p fields IH]; intros i quotes.
  { cbn. rewrite zip_with_nil_r. cbn. by rewrite (left_id_L ∅ (∪)). }
  cbn [track_quotes].
  destruct (cols !! i) as [c|] eqn:Hc.
  - rewrite (drop_S _ _ _ Hc). cbn [zip zip_with].
    rewrite filter_cons. cbn [snd].
    destruct (quote_wrapped p) eqn:Hp.
    + rewrite decide_True by done. rewrite IH. f_equal. cbn.
      by rewrite (assoc_L (∪)), (comm_L (∪) _ {[c]}).
    + rewrite decide_False by done. apply IH.
  - rewrite (drop_ge cols i) by by apply lookup_ge_None.
    assert (quoted_columns (drop (S i) cols) fields = ∅) as Hnil.
    { unfold quoted_columns. rewrite drop_ge; [done|].
      apply lookup_ge_None in Hc. lia. }
    unfold quoted_columns in Hnil.
    destruct (quote_wrapped p); rewrite IH, Hnil; done.
Qed.

Lemma parse_line_skipped (st : parse_state) (line : str) :
  skipped line = true → parse_line st line = Ok st.
Proof. unfold skipped, parse_line. by intros ->. Qed.

Lemma parse_line_declaration (st : parse_state) (line : str) :
  st_columns st = None → is_declaration line = true →
  parse_line st line
  = Ok (mkParseState (st_all_data st) (Some (declared_columns line))
          (st_quotes st) (Some (declared_marker line)) (st_first_data_row st)).
Proof.
  unfold is_declaration, skipped, parse_line, declared_columns, declared_marker,
    line_parts.
  intros Hcols [Hskip Hbang]%andb_true_iff.
  apply negb_true_iff in Hskip. rewrite Hskip, Hcols, Hbang. cbn.
  unfold col_parts_of.
  pose proof (split_nonempty comma (strip line)).
  by destruct (split comma (strip line)).
Qed.

Lemma data_line_not_declaration (line : str) :
  is_data_line line = true → is_declaration line = false.
Proof.
  unfold is_data_line, is_declaration.
  intros [-> Hstar]%andb_true_iff. cbn.
  destruct (hd [] (line_parts line)) as [|c s]; [done|].
  py_lit. rewrite startswith_cons in *.
  apply bool_decide_eq_true in Hstar as ->. done.
Qed.

Lemma parse_line_data (st : parse_state) (line : str) :
  is_data_line line = true →
  parse_line st line
  = quotes ← (if st_first_data_row st
              then track_quotes 0 (tail (line_parts line)) (st_columns st) (st_quotes st)
              else Ok (st_quotes st));
    Ok (mkParseState
          (if row_accepted (line_values line) (st_columns st)
           then st_all_data st ++ [line_values line] else st_all_data st)
          (st_columns st) quotes (st_marker st) false).
Proof.
  intros Hdata. pose proof (data_line_not_declaration line Hdata) as Hdecl.
  revert Hdata Hdecl.
  unfold is_data_line, is_declaration, skipped, parse_line, line_values, line_parts.
  intros [Hskip Hstar]%andb_true_iff. apply negb_true_iff in Hskip.
  rewrite Hskip, Hstar. cbn [negb andb]. intros ->.
  by rewrite andb_false_r.
Qed.

Lemma parse_line_other (st : parse_state) (line : str) :
  is_data_line line = false →
  st_columns st ≠ None ∨ is_declaration line = false →
  parse_line st line = Ok st.
Proof.
  unfold is_data_line, is_declaration, skipped, parse_line, line_parts.
  destruct (bool_decide (strip line = []) || startswith (strip line) "#");
    [done|].
  cbn [negb andb]. intros -> [Hcols| ->].
  - rewrite bool_decide_eq_false_2 by done. done.
  - by rewrite andb_false_r.
Qed.

Lemma parse_lines_app (st : parse_state) (l1 l2 : list str) :
  parse_lines st (l1 ++ l2) = st' ← parse_lines st l1; parse_lines st' l2.
Proof.
  revert st. induction l1 as [|line l1 IH]; intros st; [done|].
  cbn. destruct (parse_line st line) as [st'|e]; [apply IH|done].
Qed.

Lemma declaration_split (l : list str) :
  l = before_declaration l
      ++ match declaration_line l with
         | Some d => d :: after_declaration l
         | None => []
         end.
Proof.
  induction l as [|line l IH]; [done|]. cbn.
  destruct (is_declaration line); [done|]. cbn. by rewrite <- IH.
Qed.

Lemma before_declaration_none (l : list str) :
  Forall (λ line, is_declaration line = false) (before_declaration l).
Proof.
  induction l as [|line l IH]; [constructor|]. cbn.
  destruct (is_declaration line) eqn:Hd; by constructor.
Qed.

Lemma declaration_line_is (l : list str) (d : str) :
  declaration_line l = Some d → is_declaration d = true.
Proof.
  induction l as [|line l IH]; [done|]. cbn.
  destruct (is_declaration line) eqn:Hd; [by intros [= <-]|done].
Qed.

Lemma first_data_line_cons (line : str) (l : list str) :
  first_data_line (line :: l)
  = if is_data_line line then Some line else first_data_line l.
Proof.
  unfold first_data_line. rewrite filter_cons.
  destruct (is_data_line line); [by rewrite decide_True|by rewrite decide_False].
Qed.

Lemma accepted_rows_cons (cols : list str) (line : str) (l : list str) :
  accepted_rows cols (line :: l)
  = if is_data_line line && row_accepted (line_values line) (Some cols)
    then line_values line :: accepted_rows cols l
    else accepted_rows cols l.
Proof.
  unfold accepted_rows. rewrite filter_cons.
  destruct (is_data_line line), (row_accepted _ _); cbn;
    first [by rewrite decide_True | by rewrite decide_False by (intros [??]; done)].
Qed.

Lemma row_accepted_none (row_data : list str) :
  row_accepted row_data None = false.
Proof. by destruct row_data. Qed.

Lemma parse_lines_before (a : list (list str)) (q : gset str) (m : option str)
    (f : bool) (l : list str) :
  Forall (λ line, is_declaration line = false) l →
  parse_lines (mkParseState a None q m f) l
  = match (if f then first_data_line l else None) with
    | Some line =>
        if has_quoted_value line then Raise TypeError
        else Ok (mkParseState a None q m false)
    | None => Ok (mkParseState a None q m f)
    end.
Proof.
  intros Hl. revert f. induction Hl as [|line l Hline _ IH]; intros f.
  { by destruct f. }
  cbn [parse_lines]. rewrite first_data_line_cons.
  destruct (is_data_line line) eqn:Hdata.
  - rewrite parse_line_data by done. cbn. rewrite row_accepted_none.
    destruct f.
    + rewrite track_quotes_no_columns. unfold has_quoted_value.
      destruct (existsb _ _); [done|]. cbn. apply (IH false).
    + cbn. apply (IH false).
  - rewrite parse_line_other by auto. cbn. apply IH.
Qed.

Lemma parse_lines_after (a : list (list str)) (cols : list str) (q : gset str)
    (m : option str) (f : bool) (l : list str) :
  parse_lines (mkParseState a (Some cols) q m f) l
  = Ok (mkParseState (a ++ accepted_rows cols l) (Some cols)
          (match (if f then first_data_line l else None) with
           | Some line => quoted_columns cols (tail (line_parts line)) ∪ q
           | None => q
           end)
          m (f && bool_decide (first_data_line l = None))).
Proof.
  revert a q f. induction l as [|line l IH]; intros a q f.
  { cbn. rewrite app_nil_r, andb_true_r. by destruct f. }
  cbn [parse_lines]. rewrite first_data_line_cons, accepted_rows_cons.
  destruct (is_data_line line) eqn:Hdata.
  - rewrite parse_line_data by done. cbn.
    destruct f.
    + rewrite track_quotes_columns. cbn. rewrite IH. cbn.
      destruct (row_accepted _ _); by rewrite <- ?app_assoc.
    + cbn. rewrite IH. cbn.
      destruct (row_accepted _ _); by rewrite <- ?app_assoc.
  - rewrite parse_line_other by (cbn; auto). cbn. apply IH.
Qed.

Lemma after_declaration_none (l : list str) :
  declaration_line l = None → after_declaration l = [].
Proof.
  induction l as [|line l IH]; [done|]. cbn.
  by destruct (is_declaration line).
Qed.

(** The parsing loop computes [parse_outcome]. *)
Lemma parse_lines_spec (l : list str) :
  parse_lines initial_state l = parse_outcome l.
Proof.
  unfold parse_outcome, declared_state, first_row_quotes, initial_state.
  rewrite (declaration_split l) at 1.
  rewrite parse_lines_app, parse_lines_before by apply before_declaration_none.
  destruct (first_data_line (before_declaration l)) as [early|].
  - destruct (has_quoted_value early); [done|]. cbn.
    destruct (declaration_line l) as [d|] eqn:Hd; [|done].
    cbn [parse_lines].
    rewrite parse_line_declaration by eauto using declaration_line_is.
    cbn. by rewrite parse_lines_after.
  - cbn. destruct (declaration_line l) as [d|] eqn:Hd.
    + cbn [parse_lines].
      rewrite parse_line_declaration by eauto using declaration_line_is.
      cbn. rewrite parse_lines_after. cbn.
      destruct (first_data_line (after_declaration l)); [|done].
      by rewrite (right_id_L ∅ (∪)).
    + by rewrite after_declaration_none.
Qed.

(** ** The parser *)

Lemma read_rpt_file_outcome (content : str) :
  read_rpt_file content
  = if (length (readlines content) <=? 1)%nat
    then Ok (Returned4 empty_frame (head (readlines content)) [] ∅)
    else st ← parse_outcome (candidate_lines content);
         Ok (Returned5 (build_frame st) (head (readlines content))
               (footer_of (readlines content)) (st_quotes st) (st_marker st)).
Proof. unfold read_rpt_file. by rewrite parse_lines_spec. Qed.

Lemma read_rpt_file_raises (content : str) :
  read_rpt_file content = Raise TypeError ↔ stops_early content = true.
Proof.
  rewrite read_rpt_file_outcome. unfold stops_early, parse_outcome.
  destruct (length (readlines content)) as [|[|n]] eqn:Hlen; cbn; [done..|].
  destruct (first_data_line _) as [early|]; [|done].
  by destruct (has_quoted_value early).
Qed.

(** C8, on the code: a first data line that comes before the column
    declaration and has a quote-wrapped value makes [read_rpt_file] raise
    [TypeError], and a file of one line gets four components back, without
    the column marker.  The parser raises in no other case. *)
Theorem read_rpt_file_anomalies :
  read_rpt_file (rpt "3 x|*,'a'|!1,A|") = Raise TypeError
  ∧ read_rpt_file (rpt "3 x|")
    = Ok (Returned4 empty_frame (Some (rpt "3 x|")) [] ∅)
  ∧ ∀ content, read_rpt_file content = Raise TypeError
               ↔ stops_early content = true.
Proof.
  split_and!; [by vm_compute..|]. apply read_rpt_file_raises.
Qed.

Lemma row_accepted_spec (row_data cols : list str) :
  row_accepted row_data (Some cols) = true
  ↔ cols ≠ [] ∧ length row_data = length cols.
Proof.
  unfold row_accepted. destruct row_data as [|v row_data], cols as [|c cols];
    cbn; try (split; [done|intros [? ?]; done]).
  rewrite Nat.eqb_eq. split; [intros ?; split; [done|lia]|intros [_ ?]; lia].
Qed.

Lemma accepted_rows_counted (cols l : list str) :
  accepted_rows cols l
  = match cols with
    | [] => []
    | _ =>
        line_values <$>
          filter (λ line, is_data_line line = true
                          ∧ length (line_values line) = length cols) l
    end.
Proof.
  unfold accepted_rows. induction l as [|line l IH].
  { by destruct cols. }
  rewrite filter_cons.
  destruct (decide (is_data_line line = true
                    ∧ row_accepted (line_values line) (Some cols) = true))
    as [[Hdata Hacc]|Hno].
  - apply row_accepted_spec in Hacc as [Hcols Hlen].
    destruct cols as [|c cols]; [done|].
    rewrite filter_cons, decide_True by done. cbn. f_equal. apply IH.
  - destruct cols as [|c cols]; [apply IH|].
    rewrite filter_cons, decide_False; [apply IH|].
    intros [Hdata Hlen]. apply Hno. split; [done|].
    by apply row_accepted_spec.
Qed.

Lemma build_frame_declared (l : list str) (q : gset str) (f : bool) :
  rows (build_frame (declared_state l q f)) = st_all_data (declared_state l q f)
  ∧ (columns (build_frame (declared_state l q f)) = []
     ∨ Some (columns (build_frame (declared_state l q f)))
       = st_columns (declared_state l q f)).
Proof.
  unfold declared_state, build_frame.
  destruct (declaration_line l) as [d|]; cbn; [|auto].
  destruct (accepted_rows _ _) as [|r rs] eqn:Hrows; cbn; [auto|].
  destruct (declared_columns d) as [|c cs]; cbn; [|auto].
  by rewrite accepted_rows_counted in Hrows.
Qed.

Lemma data_lines_short (lines : list str) :
  (length lines ≤ 1)%nat → data_lines_of lines = [].
Proof.
  unfold data_lines_of. destruct lines as [|l0 [|l1 ls]]; [done| |cbn; lia].
  intros _. unfold find_footer_start. by destruct (is_footer_start l0).
Qed.

Lemma read_rpt_file_rows (content : str) (p : parsed) :
  read_rpt_file content = Ok p → rows (table_of p) = counted_rows content.
Proof.
  rewrite read_rpt_file_outcome. unfold counted_rows, parse_outcome.
  destruct (length (readlines content) <=? 1)%nat eqn:Hlen.
  { intros [= <-]. apply Nat.leb_le in Hlen.
    unfold candidate_lines. by rewrite data_lines_short. }
  assert (∀ q f, rows (build_frame (declared_state (candidate_lines content) q f))
                 = match declaration_line (candidate_lines content) with
                   | Some d =>
                       accepted_rows (declared_columns d)
                         (after_declaration (candidate_lines content))
                   | None => []
                   end) as Hrows.
  { intros q f. rewrite (proj1 (build_frame_declared _ q f)).
    unfold declared_state. by destruct (declaration_line _). }
  intros Hp.
  assert (rows (table_of p)
          = match declaration_line (candidate_lines content) with
            | Some d =>
                accepted_rows (declared_columns d)
                  (after_declaration (candidate_lines content))
            | None => []
            end) as ->.
  { destruct (first_data_line _) as [early|].
    - destruct (has_quoted_value early); [done|].
      cbn in Hp. injection Hp as <-. apply Hrows.
    - cbn in Hp. injection Hp as <-. apply Hrows. }
  destruct (declaration_line _) as [d|]; [|done].
  rewrite accepted_rows_counted. by destruct (declared_columns d).
Qed.

(** C7, as the code has it: once columns are declared, a data line whose
    value count differs from the column count is left out of the table and
    raises nothing; and whenever the parser returns, the rows of its table
    are the values of exactly the data lines that follow the declaration of
    at least one column and have as many values as columns are declared,
    so the row count is the number of these lines.  (The parser returns
    unless it stops on the data line that C8 is about.) *)
Theorem mismatched_rows_dropped :
  (∀ (st : parse_state) (cols : list str) (line : str),
     st_columns st = Some cols → is_data_line line = true →
     length (line_values line) ≠ length cols →
     ∃ st', parse_line st line = Ok st' ∧ st_all_data st' = st_all_data st)
  ∧ ∀ content,
      match read_rpt_file content with
      | Ok p => rows (table_of p) = counted_rows content
                ∧ length (rows (table_of p)) = length (counted_rows content)
      | Raise _ => stops_early content = true
      end.
Proof.
  split.
  - intros st cols line Hcols Hdata Hlen.
    rewrite parse_line_data, Hcols by done.
    assert (row_accepted (line_values line) (Some cols) = false) as ->.
    { apply not_true_is_false. rewrite row_accepted_spec. tauto. }
    destruct (st_first_data_row st).
    + rewrite track_quotes_columns. cbn. eauto.
    + cbn. eauto.
  - intros content. destruct (read_rpt_file content) as [p|[]] eqn:Hread.
    + by rewrite (read_rpt_file_rows content p).
    + by apply read_rpt_file_raises.
Qed.

Lemma mismatched_rows_dropped_witness :
  ∃ st', parse_line (mkParseState [] (Some [py "A"; py "B"]) ∅ (Some (py "1")) true)
           (rpt "*,'x'|")
         = Ok st' ∧ st_all_data st' = [].
Proof.
  apply (proj1 mismatched_rows_dropped
           (mkParseState [] (Some [py "A"; py "B"]) ∅ (Some (py "1")) true)
           [py "A"; py "B"] (rpt "*,'x'|")); [done|done|].
  vm_compute. lia.
Defined.

(** C7 as it is stated fails: a data line with no value under a
    declaration of no column, and a data line that precedes the
    declaration, have as many values as columns are declared and are not
    rows of the table. *)
Lemma mismatched_rows_counterexample :
  (∃ p, read_rpt_file (rpt "0 x|!1|*|") = Ok p
        ∧ length (rows (table_of p))
          ≠ length (counted_rows_anywhere (rpt "0 x|!1|*|")))
  ∧ (∃ p, read_rpt_file (rpt "1 x|*,a|!1,A|") = Ok p
          ∧ length (rows (table_of p))
            ≠ length (counted_rows_anywhere (rpt "1 x|*,a|!1,A|"))).
Proof.
  split; (eexists; split; [by vm_compute|]); vm_compute; lia.
Qed.

(** ** Quoted columns *)

Lemma declared_state_quotes (l : list str) (q : gset str) (f : bool) :
  st_quotes (declared_state l q f) = q.
Proof. unfold declared_state. by destruct (declaration_line l). Qed.

Lemma read_rpt_file_quotes (content : str) (p : parsed) :
  read_rpt_file content = Ok p →
  quotes_of p = first_row_quotes (candidate_lines content).
Proof.
  rewrite read_rpt_file_outcome. unfold parse_outcome.
  destruct (length (readlines content) <=? 1)%nat eqn:Hlen.
  { intros [= <-]. apply Nat.leb_le in Hlen.
    unfold candidate_lines. by rewrite data_lines_short. }
  unfold first_row_quotes at 2.
  destruct (first_data_line _) as [early|] eqn:Hearly.
  - destruct (has_quoted_value early); [done|].
    cbn. intros [= <-]. cbn. by rewrite declared_state_quotes.
  - cbn. intros [= <-]. cbn. rewrite declared_state_quotes.
    unfold first_row_quotes. by rewrite Hearly.
Qed.

(** C5, as the code has it: after the instructions are applied, the set of
    quoted columns holds exactly the columns quoted in the first data row
    (when the declaration precedes it) and the columns to which an [add]
    instruction gave a value that fails numeric coercion.  Update
    instructions leave the set as it is. *)
Theorem quoted_set_after_updates (num : Type) (Hnum : EqDecision num)
    (to_numeric : str → option (numeric num)) (content : str) (p : parsed)
    (update_values_df : list instruction) :
  read_rpt_file content = Ok p →
  (apply_updates to_numeric (table_of p) update_values_df (quotes_of p)).2
  = first_row_quotes (candidate_lines content)
    ∪ added_string_columns to_numeric update_values_df.
Proof.
  intros Hread. rewrite apply_updates_quotes.
  by rewrite (read_rpt_file_quotes content p).
Qed.

Lemma quoted_set_after_updates_witness :
  ∃ p, read_rpt_file scenario = Ok p
       ∧ (apply_updates decimal_to_numeric (table_of p)
            [mkInstruction "add" "NOTE" "pending" None None None] (quotes_of p)).2
         = first_row_quotes (candidate_lines scenario)
           ∪ added_string_columns decimal_to_numeric
               [mkInstruction "add" "NOTE" "pending" None None None].
Proof.
  eexists. split; [by vm_compute|].
  apply (quoted_set_after_updates Z _ decimal_to_numeric scenario).
  by vm_compute.
Defined.

(** C5 as it is stated fails: an unconditional update of [AMT] to the
    value [pending], which is not numeric, leaves [AMT] out of the set. *)
Lemma quoted_set_counterexample :
  ∃ p, read_rpt_file scenario = Ok p
       ∧ (apply_updates decimal_to_numeric (table_of p)
            [mkInstruction "update" "AMT" "pending" None None None] (quotes_of p)).2
         ≠ first_row_quotes (candidate_lines scenario)
           ∪ added_or_updated_string_columns decimal_to_numeric
               [mkInstruction "update" "AMT" "pending" None None None].
Proof.
  eexists. split; [by vm_compute|].
  intros Heq.
  apply (f_equal (λ X : gset str, bool_decide (py "AMT" ∈ X))) in Heq.
  vm_compute in Heq. discriminate.
Qed.

(** ** Values of a data line *)

Lemma all_quotes_replicate (l : str) :
  all_chars is_quote l → l = replicate (length l) dquote.
Proof.
  induction 1 as [|c l Hc _ IH]; [done|]. cbn. rewrite <- IH. f_equal.
  apply bool_decide_eq_true in Hc. by apply list_elem_of_singleton in Hc.
Qed.

Lemma strip_quotes_spec (p : str) :
  ∃ n k, p = replicate n dquote ++ strip_chars [dquote] p ++ replicate k dquote
         ∧ trimmed is_quote (strip_chars [dquote] p).
Proof.
  destruct (strip_with_spec is_quote p) as (l & r & Hp & Hl & Hr & Ht).
  exists (length l), (length r). split; [|done].
  by rewrite <- (all_quotes_replicate l), <- (all_quotes_replicate r).
Qed.

(** C4, as the code has it: the values of a data line are its fields after
    the first, each without all of its leading and all of its trailing
    double quotes, however many there are on either side; the line adds
    this row to the table, or nothing. *)
Theorem data_line_values (st st' : parse_state) (line : str) :
  is_data_line line = true →
  parse_line st line = Ok st' →
  (st_all_data st' = st_all_data st ++ [line_values line]
   ∨ st_all_data st' = st_all_data st)
  ∧ line_values line = strip_chars [dquote] <$> tail (line_parts line)
  ∧ Forall2 (λ p v, ∃ n k, p = replicate n dquote ++ v ++ replicate k dquote
                           ∧ trimmed is_quote v)
      (tail (line_parts line)) (line_values line).
Proof.
  intros Hdata. rewrite parse_line_data by done. intros Hst.
  split_and!.
  - destruct (if st_first_data_row st then _ else _) as [q|e]; [|done].
    cbn in Hst. injection Hst as <-. cbn.
    destruct (row_accepted _ _); auto.
  - done.
  - unfold line_values, row_data_of. apply Forall2_fmap_r, Forall_Forall2_diag.
    apply Forall_forall. intros p _. apply strip_quotes_spec.
Qed.

Lemma data_line_values_witness :
  line_values (rpt "*,''X'','Y|") = [py "X"; py "Y"]
  ∧ Forall2 (λ p v, ∃ n k, p = replicate n dquote ++ v ++ replicate k dquote
                           ∧ trimmed is_quote v)
      (tail (line_parts (rpt "*,''X'','Y|"))) (line_values (rpt "*,''X'','Y|")).
Proof.
  split; [by vm_compute|].
  apply (data_line_values
           (mkParseState [] (Some [py "A"; py "B"]) ∅ (Some (py "1")) true)
           (mkParseState [[py "X"; py "Y"]] (Some [py "A"; py "B"])
              {[ py "A" ]} (Some (py "1")) false)
           (rpt "*,''X'','Y|")); by vm_compute.
Defined.

(** C4 as it is stated fails: a field wrapped in two pairs of quotes loses
    both pairs, and a field with a quote on its left only loses it. *)
Lemma data_line_values_counterexample :
  ∃ p, read_rpt_file (rpt "2 x|!1,A,B|*,''X'','Y|") = Ok p
       ∧ rows (table_of p) = [[py "X"; py "Y"]]
       ∧ strip_one_pair <$> tail (line_parts (rpt "*,''X'','Y|"))
         = [rpt "'X'"; rpt "'Y"]
       ∧ rows (table_of p)
         ≠ [strip_one_pair <$> tail (line_parts (rpt "*,''X'','Y|"))].
Proof.
  eexists. split_and!; [by vm_compute..|]. by vm_compute.
Qed.

(** ** Witnesses for the update instructions *)


Lemma apply_updates_grouped_witness :
  apply_updates decimal_to_numeric scenario_table
    [update_where None None None;
     mkInstruction "delete" "CODE" "" None None None;
     mkInstruction "add" "AMT" "0" None None None] ∅
  = apply_updates decimal_to_numeric scenario_table
      [mkInstruction "add" "AMT" "0" None None None;
       mkInstruction "delete" "CODE" "" None None None;
       update_where None None None] ∅.
Proof.
  apply (proj2 (apply_updates_grouped decimal_to_numeric scenario_table
                  [mkInstruction "add" "AMT" "0" None None None;
                   mkInstruction "delete" "CODE" "" None None None;
                   update_where None None None] ∅)); by vm_compute.
Defined.


Lemma update_lookup_column_alone_witness :
  apply_update decimal_to_numeric scenario_table
    (update_where (Some (py "CODE")) None None)
  = mkDataFrame (py <$> ["CODE"; "NAME"; "AMT"])
      [py <$> ["5"; "Alice"; "999"]; py <$> ["6"; "Bob"; "999"]].
Proof.
  rewrite (update_lookup_column_alone decimal_to_numeric scenario_table
             (update_where (Some (py "CODE")) None None) "CODE"
             eq_refl eq_refl eq_refl eq_refl).
  by vm_compute.
Defined.

(** ** Splitting and joining *)

Lemma split_Forall (P : ascii → Prop) (sep : ascii) (s : str) :
  Forall P s → Forall (Forall P) (split sep s).
Proof.
  induction 1 as [|c s Hc _ IH]; cbn; [by repeat constructor|].
  case_bool_decide; [by repeat constructor|].
  destruct (split sep s) as [|f fs]; [by repeat constructor|].
  inversion IH; subst. by repeat constructor.
Qed.

Lemma split_no_sep (sep : ascii) (s : str) :
  Forall (Forall (λ c, c ≠ sep)) (split sep s).
Proof.
  induction s as [|c s IH]; cbn; [by repeat constructor|].
  case_bool_decide; [by repeat constructor|].
  destruct (split sep s) as [|f fs]; [by repeat constructor|].
  inversion IH; subst. by repeat constructor.
Qed.

Lemma split_field (sep : ascii) (f : str) :
  Forall (λ c, c ≠ sep) f → split sep f = [f].
Proof.
  induction 1 as [|c f Hc _ IH]; [done|]. cbn.
  by rewrite bool_decide_eq_false_2, IH.
Qed.

Lemma split_field_sep (sep : ascii) (f s : str) :
  Forall (λ c, c ≠ sep) f → split sep (f ++ sep :: s) = f :: split sep s.
Proof.
  induction 1 as [|c f Hc _ IH]; cbn.
  - by rewrite bool_decide_eq_true_2.
  - by rewrite bool_decide_eq_false_2, IH.
Qed.

Lemma split_join (sep : ascii) (fields : list str) :
  fields ≠ [] → Forall (Forall (λ c, c ≠ sep)) fields →
  split sep (join [sep] fields) = fields.
Proof.
  intros Hne Hfields. induction Hfields as [|f fields Hf Hfields IH]; [done|].
  destruct fields as [|g fields]; [by apply split_field|].
  cbn [join]. cbn [app]. rewrite split_field_sep by done.
  f_equal. by apply IH.
Qed.

Lemma join_Forall (P : ascii → Prop) (sep : str) (l : list str) :
  Forall P sep → Forall (Forall P) l → Forall P (join sep l).
Proof.
  intros Hsep. induction 1 as [|x l Hx Hl IH]; [constructor|].
  destruct l as [|y l]; [done|]. cbn [join].
  rewrite !Forall_app. auto.
Qed.

Lemma join_cons (sep : str) (x y : str) (l : list str) :
  join sep (x :: y :: l) = x ++ sep ++ join sep (y :: l).
Proof. done. Qed.

(** The last character after a comma and a joined list of fields is the
    last character of the last field, or a comma. *)
Lemma comma_join_last (p : ascii → bool) (fields : list str) :
  fields ≠ [] → p comma = false →
  (∀ f c, last fields = Some f → last f = Some c → p c = false) →
  ∀ c, last (comma :: join [comma] fields) = Some c → p c = false.
Proof.
  intros Hne Hcomma. induction fields as [|f fields IH]; [done|].
  intros Hlast c. destruct fields as [|g fields].
  - cbn [join]. rewrite last_cons.
    destruct (last f) as [x|] eqn:Hf.
    + intros [= <-]. by apply (Hlast f).
    + by intros [= <-].
  - rewrite join_cons.
    change (comma :: f ++ [comma] ++ join [comma] (g :: fields))
      with ((comma :: f) ++ comma :: join [comma] (g :: fields)).
    rewrite last_app. cbn [last]. 
    destruct (last (comma :: join [comma] (g :: fields))) as [y|] eqn:Hy.
    + intros [= <-]. apply (IH ltac:(done)); [|done].
      intros f' c' Hf'. apply Hlast. by rewrite last_cons_cons.
    + by apply last_None in Hy.
Qed.

(** ** Lines *)

Lemma readlines_line (body rest : str) :
  Forall (λ c, c ≠ newline) body →
  readlines (body ++ newline :: rest) = (body ++ [newline]) :: readlines rest.
Proof.
  induction 1 as [|c body Hc _ IH]; cbn.
  - by rewrite bool_decide_eq_true_2.
  - by rewrite bool_decide_eq_false_2, IH.
Qed.

Lemma readlines_last (s : str) :
  unterminated s → readlines s = [s].
Proof.
  intros [Hne Hs]. induction Hs as [|c s Hc Hs IH]; [done|]. cbn.
  rewrite bool_decide_eq_false_2 by done.
  destruct s as [|d s]; [done|]. by rewrite IH.
Qed.

Lemma readlines_proper (s : str) : proper_lines (readlines s).
Proof.
  induction s as [|c s IH]; cbn; [constructor|].
  case_bool_decide as Hc.
  - subst c. apply proper_cons; [|done]. by exists [].
  - inversion IH as [|l Hl Heq|l ls Hl Hls Heq].
    + apply proper_last. split; [done|]. by repeat constructor.
    + apply proper_last. destruct Hl as [_ Hl]. split; [done|]. by constructor.
    + apply proper_cons; [|done].
      destruct Hl as (body & -> & Hbody). exists (c :: body). split; [done|].
      by constructor.
Qed.

Lemma readlines_concat (ls : list str) :
  proper_lines ls → readlines (concat ls) = ls.
Proof.
  induction 1 as [|l Hl|l ls (body & -> & Hbody) Hls IH]; [done| |].
  - cbn. rewrite app_nil_r. by apply readlines_last.
  - cbn [concat]. rewrite <- app_assoc. cbn [app].
    by rewrite readlines_line, IH.
Qed.

Lemma proper_lines_app (ls1 ls2 : list str) :
  Forall terminated ls1 → proper_lines ls2 → proper_lines (ls1 ++ ls2).
Proof. induction 1; [done|]. intros. cbn. apply proper_cons; auto. Qed.

Lemma proper_lines_drop (n : nat) (ls : list str) :
  proper_lines ls → proper_lines (drop n ls).
Proof.
  intros Hls. revert n. induction Hls as [|l Hl|l ls Hl Hls IH]; intros [|n];
    cbn; try constructor; try done. by rewrite drop_nil; constructor.
Qed.

Lemma proper_lines_elem (ls : list str) (l : str) :
  proper_lines ls → l ∈ ls → terminated l ∨ unterminated l.
Proof.
  induction 1 as [|l' Hl|l' ls Hl Hls IH]; intros Hin.
  - by apply elem_of_nil in Hin.
  - apply list_elem_of_singleton in Hin as ->. auto.
  - apply elem_of_cons in Hin as [->|Hin]; auto.
Qed.

Lemma proper_lines_head (l l' : str) (ls : list str) :
  proper_lines (l :: l' :: ls) → terminated l.
Proof. by inversion 1. Qed.

Lemma strip_no_newline (l : str) :
  terminated l ∨ unterminated l → Forall (λ c, c ≠ newline) (strip l).
Proof.
  unfold strip. intros [(body & -> & Hbody)|[_ Hl]].
  - rewrite strip_with_snoc by done. by apply strip_with_Forall.
  - by apply strip_with_Forall.
Qed.

(** ** The header line *)

Lemma str_of_uint_digits (d : uint) : all_chars is_digit (str_of_uint d).
Proof. induction d; cbn; by constructor. Qed.

Lemma str_of_nat_nonempty (n : nat) : str_of_nat n ≠ [].
Proof.
  unfold str_of_nat. intros Hnil.
  assert (Nat.to_uint n = Nil) as Hn by by destruct (Nat.to_uint n).
  pose proof (Unsigned.of_to n) as Hof. rewrite Hn in Hof. cbn in Hof.
  by subst n.
Qed.

Lemma digit_plain (c : ascii) :
  is_digit c = true →
  isspace c = false ∧ c ≠ newline ∧ c ≠ "#"%char.
Proof.
  intros Hc%bool_decide_eq_true. py_lit.
  repeat (apply elem_of_cons in Hc as [->|Hc]; [by vm_compute|]).
  by apply elem_of_nil in Hc.
Qed.

Lemma split_whitespace_tokens (s : str) :
  Forall (Forall (λ c, isspace c = false)) (split_whitespace s).
Proof.
  induction s as [|c s IH]; cbn; [constructor|].
  destruct (isspace c) eqn:Hc; [done|].
  destruct s as [|d s]; [by repeat constructor|].
  destruct (isspace d) eqn:Hd; [by repeat constructor|].
  destruct (split_whitespace (d :: s)) as [|t ts]; [by repeat constructor|].
  inversion IH; subst. by repeat constructor.
Qed.

Lemma not_space_not_newline (c : ascii) : isspace c = false → c ≠ newline.
Proof. by intros Hc ->. Qed.

Lemma lstrip_snoc (p : ascii → bool) (s : str) (c : ascii) :
  p c = false → last (lstrip p (s ++ [c])) = Some c.
Proof.
  intros Hc. induction s as [|x s IH]; cbn; [by rewrite Hc|].
  destruct (p x); [done|].
  change (x :: s ++ [c]) with ((x :: s) ++ [c]). apply last_snoc.
Qed.

Lemma strip_with_head (p : ascii → bool) (s : str) (c : ascii) :
  head s = Some c → p c = false → head (strip_with p s) = Some c.
Proof.
  destruct s as [|x s]; [done|]. intros [= ->] Hc.
  unfold strip_with, rstrip. cbn [lstrip]. rewrite Hc.
  by rewrite head_reverse, reverse_cons, lstrip_snoc.
Qed.

Lemma startswith_first (s pre : str) (x : ascii) :
  startswith s (x :: pre) = true → head s = Some x.
Proof.
  destruct s as [|c s]; cbn; [done|].
  by intros [->%bool_decide_eq_true _]%andb_true_iff.
Qed.

(** A line that starts with a character that is neither whitespace nor a
    hash sign does not start the footer. *)
Lemma not_footer_start (l : str) (c : ascii) :
  head l = Some c → isspace c = false → c ≠ "#"%char →
  is_footer_start l = false.
Proof.
  intros Hhd Hc Hhash. apply not_true_is_false.
  unfold is_footer_start, strip. py_lit. intros Hst%startswith_first.
  rewrite (strip_with_head isspace l c) in Hst by done. congruence.
Qed.

Lemma write_header_line (df : DataFrame) (h : str) :
  terminated h → is_footer_start h = false →
  terminated (write_header df (Some h))
  ∧ is_footer_start (write_header df (Some h)) = false.
Proof.
  intros Hh Hfoot. unfold write_header.
  destruct h as [|c h]; [by destruct Hh as ([|??] & ? & _)|].
  pose proof (split_whitespace_tokens (strip (c :: h))) as Htok.
  destruct (split_whitespace (strip (c :: h))) as [|t parts]; [done|].
  apply Forall_cons in Htok as [_ Hparts].
  pose proof (str_of_nat_nonempty (length (columns df))) as Hne.
  pose proof (str_of_uint_digits (Nat.to_uint (length (columns df)))) as Hdig.
  fold (str_of_nat (length (columns df))) in Hdig.
  split.
  - eexists. split; [done|]. apply join_Forall.
    + by repeat constructor.
    + constructor.
      * eapply Forall_impl; [exact Hdig|]. intros x Hx. by apply digit_plain.
      * eapply Forall_impl; [exact Hparts|]. intros tok Htok.
        eapply Forall_impl; [exact Htok|]. apply not_space_not_newline.
  - destruct (str_of_nat (length (columns df))) as [|d ds]; [done|].
    apply Forall_cons in Hdig as [Hd _]. apply digit_plain in Hd as (? & ? & ?).
    apply (not_footer_start _ d); [|done..].
    by destruct parts.
Qed.

(** ** The footer *)

Lemma find_footer_start_skip (k : nat) (T F : list str) :
  Forall (λ l, is_footer_start l = false) T →
  find_footer_start k (T ++ F) = find_footer_start (k + length T) F.
Proof.
  intros HT. revert k.
  induction HT as [|l T Hl _ IH]; intros k; cbn [app find_footer_start length].
  - by rewrite Nat.add_0_r.
  - rewrite Hl, IH. f_equal. lia.
Qed.

Lemma find_footer_start_Some (k i : nat) (lines : list str) :
  find_footer_start k lines = Some i →
  ∃ j f, i = k + j ∧ lines !! j = Some f ∧ is_footer_start f = true
         ∧ Forall (λ l, is_footer_start l = false) (take j lines).
Proof.
  revert k. induction lines as [|l lines IH]; intros k;
    cbn [find_footer_start]; [done|].
  destruct (is_footer_start l) eqn:Hl.
  - intros [= <-]. exists 0, l. split_and!; [lia|done|done|constructor].
  - intros (j & f & -> & Hj & Hf & Htake)%IH.
    exists (S j), f. split_and!; [lia|done|done|by constructor].
Qed.

(** The footer is empty or starts with a line that starts the footer. *)
Lemma footer_of_head (lines : list str) :
  match footer_of lines with
  | [] => True
  | f :: _ => is_footer_start f = true
  end.
Proof.
  unfold footer_of.
  destruct (find_footer_start 0 lines) as [i|] eqn:Hi; [|done].
  apply find_footer_start_Some in Hi as (j & f & -> & Hj & Hf & _). cbn.
  by rewrite (drop_S _ _ _ Hj).
Qed.

Lemma footer_of_proper (lines : list str) :
  proper_lines lines → proper_lines (footer_of lines).
Proof.
  unfold footer_of. intros Hl.
  destruct (find_footer_start 0 lines); [by apply proper_lines_drop|constructor].
Qed.

(** The footer and the candidate lines of a text made of lines [T] that do
    not start the footer, followed by a footer [F]. *)
Lemma footer_of_app (T F : list str) :
  Forall (λ l, is_footer_start l = false) T →
  match F with [] => True | f :: _ => is_footer_start f = true end →
  footer_of (T ++ F) = F ∧ data_lines_of (T ++ F) = drop 1 T.
Proof.
  intros HT HF. unfold footer_of, data_lines_of.
  rewrite find_footer_start_skip by done. cbn [Nat.add].
  destruct F as [|f F]; cbn [find_footer_start].
  - by rewrite app_nil_r.
  - rewrite HF. by rewrite drop_app_length, take_app_length.
Qed.

Lemma in_drop {A} (n : nat) (l : list A) (x : A) : x ∈ drop n l → x ∈ l.
Proof. intros Hx. rewrite <- (take_drop n l). apply elem_of_app. auto. Qed.

Lemma in_take {A} (n : nat) (l : list A) (x : A) : x ∈ take n l → x ∈ l.
Proof. intros Hx. rewrite <- (take_drop n l). apply elem_of_app. auto. Qed.

Lemma data_lines_subset (lines : list str) (l : str) :
  l ∈ data_lines_of lines → l ∈ lines.
Proof.
  unfold data_lines_of. destruct (find_footer_start 0 lines) as [i|].
  - intros Hl%in_drop%in_take. done.
  - by intros Hl%in_drop.
Qed.

Lemma write_rpt_file_lines (df : DataFrame) (h : option str) (f : list str)
    (q : gset str) (m : option str) :
  write_rpt_file df h f q m = concat (written_lines df h f q m).
Proof.
  unfold write_rpt_file, written_lines. cbn [app concat].
  rewrite !concat_app. cbn [concat]. by rewrite <- !app_assoc.
Qed.

(** ** Reading back what was written *)

Lemma last_zip_with {A B C} (f : A → B → C) (l1 : list A) (l2 : list B) :
  length l1 = length l2 →
  last (zip_with f l1 l2)
  = match last l1, last l2 with
    | Some a, Some b => Some (f a b)
    | _, _ => None
    end.
Proof.
  revert l2. induction l1 as [|a l1 IH]; intros [|b l2] Hlen; try done.
  destruct l1 as [|a' l1], l2 as [|b' l2]; try done.
  cbn [zip_with]. rewrite !last_cons_cons.
  apply (IH (b' :: l2)). cbn in *. lia.
Qed.

Lemma strip_line (s : str) :
  trimmed isspace s → strip (s ++ [newline]) = s.
Proof.
  intros Hs. unfold strip. rewrite strip_with_snoc by done.
  by apply strip_with_keep.
Qed.

Lemma trimmed_app (p : ascii → bool) (x : ascii) (s t : str) :
  p x = false → t ≠ [] → (∀ c, last t = Some c → p c = false) →
  trimmed p ((x :: s) ++ t).
Proof.
  intros Hx Hne Hlast. split.
  - by intros c [= <-].
  - intros c. rewrite last_app. destruct (last t) as [y|] eqn:Hy.
    + intros [= <-]. by apply Hlast.
    + by apply last_None in Hy.
Qed.

Lemma strip_name (c : str) :
  good_name c → strip (strip_chars "!" c) = c.
Proof.
  intros (_ & Hws & Hbang).
  change (strip_chars "!" c) with (strip_with is_bang c).
  rewrite (strip_with_keep is_bang c) by done. by apply strip_with_keep.
Qed.

Lemma strip_value (q : gset str) (c v : str) :
  good_value v → strip_chars [dquote] (format_value q c v) = v.
Proof.
  intros [_ Hv].
  change (strip_chars [dquote]) with (strip_with is_quote).
  unfold format_value. case_bool_decide.
  - by apply (strip_with_unique is_quote [dquote] v [dquote]);
      [repeat constructor..|].
  - by apply strip_with_keep.
Qed.

Lemma strip_values (q : gset str) (cols row : list str) :
  length row = length cols → Forall good_value row →
  strip_chars [dquote] <$> zip_with (format_value q) cols row = row.
Proof.
  intros Hlen Hrow. revert cols Hlen.
  induction Hrow as [|v row Hv _ IH]; intros [|c cols] Hlen; try done.
  cbn. rewrite strip_value by done. f_equal. apply IH. by injection Hlen.
Qed.

Lemma format_value_no_comma (q : gset str) (c v : str) :
  good_value v → Forall (λ x, x ≠ comma) (format_value q c v).
Proof.
  intros [Hv _]. unfold format_value.
  assert (Forall (λ x, x ≠ comma) v) as Hv'.
  { eapply Forall_impl; [exact Hv|]. by intros x [? _]. }
  case_bool_decide; [|done]. rewrite !Forall_app. by repeat constructor.
Qed.

Lemma format_value_no_newline (q : gset str) (c v : str) :
  good_value v → Forall (λ x, x ≠ newline) (format_value q c v).
Proof.
  intros [Hv _]. unfold format_value.
  assert (Forall (λ x, x ≠ newline) v) as Hv'.
  { eapply Forall_impl; [exact Hv|]. by intros x [_ ?]. }
  case_bool_decide; [|done]. rewrite !Forall_app. by repeat constructor.
Qed.

Lemma zip_with_Forall {A B C} (P : C → Prop) (f : A → B → C)
    (l1 : list A) (l2 : list B) :
  Forall (λ b, ∀ a, P (f a b)) l2 → Forall P (zip_with f l1 l2).
Proof.
  intros Hl2. revert l1. induction Hl2 as [|b l2 Hb _ IH]; intros [|a l1];
    cbn; constructor; auto.
Qed.

Lemma good_name_no_comma (c : str) :
  good_name c → Forall (λ x, x ≠ comma) c.
Proof. intros (Hc & _). eapply Forall_impl; [exact Hc|]. by intros x [? _]. Qed.

Lemma good_name_no_newline (c : str) :
  good_name c → Forall (λ x, x ≠ newline) c.
Proof. intros (Hc & _). eapply Forall_impl; [exact Hc|]. by intros x [_ ?]. Qed.

Lemma strip_names (cols : list str) :
  Forall good_name cols → (λ p, strip (strip_chars "!" p)) <$> cols = cols.
Proof.
  induction 1 as [|c cols Hc _ IH]; [done|].
  by rewrite fmap_cons, strip_name, IH.
Qed.

Lemma not_skipped (s : str) (x : ascii) :
  head s = Some x → x ≠ "#"%char → trimmed isspace s →
  skipped (s ++ [newline]) = false.
Proof.
  intros Hx Hhash Hs. unfold skipped. rewrite strip_line by done.
  destruct s as [|c s]; [done|]. injection Hx as ->. py_lit.
  rewrite startswith_cons. by rewrite !bool_decide_eq_false_2.
Qed.

(** The column line that is written for a marker and column names as the
    parser yields them declares these names again. *)
Lemma written_col_line (cols : list str) (rs : list (list str))
    (x : ascii) (mk : str) :
  cols ≠ [] → Forall good_name cols → clean (x :: mk) →
  let line := write_col_line (mkDataFrame cols rs) (Some (x :: mk)) ++ [newline] in
  is_declaration line = true ∧ declared_columns line = cols
  ∧ terminated line ∧ is_footer_start line = false.
Proof.
  intros Hne Hcols Hmk line.
  assert (line = join [comma] (("!" ++ x :: mk) :: cols) ++ [newline]) as Hline.
  { subst line. unfold write_col_line. cbn [columns].
    destruct cols as [|c cols]; [done|]. rewrite join_cons.
    by rewrite <- !app_assoc. }
  assert (join [comma] (("!" ++ x :: mk) :: cols)
          = ("!"%char :: x :: mk) ++ comma :: join [comma] cols) as Hjoin.
  { destruct cols as [|c cols]; [done|]. rewrite join_cons.
    by rewrite <- app_assoc. }
  assert (trimmed isspace (join [comma] (("!" ++ x :: mk) :: cols))) as Htrim.
  { rewrite Hjoin. apply trimmed_app; [done|done|].
    apply comma_join_last; [done|done|].
    intros f c Hf Hc. apply last_Some_elem_of in Hf.
    rewrite Forall_forall in Hcols. destruct (Hcols f Hf) as (_ & [_ Hl] & _).
    by apply Hl. }
  assert (Forall (Forall (λ c, c ≠ comma)) (("!" ++ x :: mk) :: cols)) as Hfields.
  { constructor.
    - constructor; [done|]. eapply Forall_impl; [exact Hmk|]. by intros ? [? _].
    - eapply Forall_impl; [exact Hcols|]. apply good_name_no_comma. }
  assert (line_parts line = ("!" ++ x :: mk) :: cols) as Hparts.
  { unfold line_parts. rewrite Hline, strip_line by done.
    by apply split_join. }
  assert (skipped line = false) as Hskip.
  { rewrite Hline. apply (not_skipped _ "!"%char); [by rewrite Hjoin|done|done]. }
  split_and!.
  - unfold is_declaration. by rewrite Hskip, Hparts.
  - unfold declared_columns, col_parts_of. rewrite Hparts, fmap_cons.
    cbn [tail]. by apply strip_names.
  - exists (join [comma] (("!" ++ x :: mk) :: cols)). split; [exact Hline|].
    apply join_Forall; [by repeat constructor|]. constructor.
    + constructor; [done|]. eapply Forall_impl; [exact Hmk|]. by intros ? [_ ?].
    + eapply Forall_impl; [exact Hcols|]. apply good_name_no_newline.
  - rewrite Hline, Hjoin. by apply (not_footer_start _ "!"%char).
Qed.

(** The data line that is written for a row as the parser yields it is
    read back as this row. *)
Lemma written_data_line (cols : list str) (rs : list (list str))
    (q : gset str) (row : list str) :
  cols ≠ [] → good_row q cols row →
  let line := write_data_line (mkDataFrame cols rs) q row ++ [newline] in
  is_data_line line = true ∧ line_values line = row
  ∧ row_accepted row (Some cols) = true
  ∧ terminated line ∧ is_footer_start line = false.
Proof.
  intros Hne (Hlen & Hrow & Hlast) line.
  set (fmt := zip_with (format_value q) cols row).
  assert (length fmt = length cols) as Hfmt.
  { subst fmt. rewrite length_zip_with. lia. }
  assert (fmt ≠ []) as Hfmt_ne.
  { intros Hnil. rewrite Hnil in Hfmt. by destruct cols. }
  assert (line = join [comma] (py "*" :: fmt) ++ [newline]) as Hline.
  { subst line. unfold write_data_line. cbn [columns]. fold fmt.
    destruct fmt as [|f fmt]; [done|]. by rewrite join_cons. }
  assert (join [comma] (py "*" :: fmt)
          = ["*"%char] ++ comma :: join [comma] fmt) as Hjoin.
  { destruct fmt as [|f fmt]; [done|]. by rewrite join_cons. }
  assert (Forall (λ v, ∀ c, Forall (λ x, x ≠ comma) (format_value q c v)) row)
    as Hcomma.
  { eapply Forall_impl; [exact Hrow|]. intros v Hv c.
    by apply format_value_no_comma. }
  assert (Forall (λ v, ∀ c, Forall (λ x, x ≠ newline) (format_value q c v)) row)
    as Hnl.
  { eapply Forall_impl; [exact Hrow|]. intros v Hv c.
    by apply format_value_no_newline. }
  assert (trimmed isspace (join [comma] (py "*" :: fmt))) as Htrim.
  { rewrite Hjoin. apply trimmed_app; [done|done|].
    apply comma_join_last; [done|done|].
    intros f c. subst fmt. rewrite last_zip_with by done.
    unfold last_value_kept in Hlast.
    destruct (last cols) as [c0|]; [|done].
    destruct (last row) as [v0|]; [|done].
    intros [= <-]. unfold format_value.
    destruct (bool_decide (c0 ∈ q)).
    - rewrite app_assoc, last_snoc. by intros [= <-].
    - cbn in Hlast. intros Hc. rewrite Hc in Hlast.
      by apply negb_true_iff in Hlast. }
  assert (line_parts line = py "*" :: fmt) as Hparts.
  { unfold line_parts. rewrite Hline, strip_line by done.
    apply split_join; [done|]. constructor; [by repeat constructor|].
    by apply zip_with_Forall. }
  assert (skipped line = false) as Hskip.
  { rewrite Hline. apply (not_skipped _ "*"%char); [by rewrite Hjoin|done|done]. }
  split_and!.
  - unfold is_data_line. by rewrite Hskip, Hparts.
  - unfold line_values, row_data_of. rewrite Hparts. cbn [tail].
    by apply strip_values.
  - by apply row_accepted_spec.
  - exists (join [comma] (py "*" :: fmt)). split; [exact Hline|].
    apply join_Forall; [by repeat constructor|]. constructor.
    + by repeat constructor.
    + by apply zip_with_Forall.
  - rewrite Hline, Hjoin. by apply (not_footer_start _ "*"%char).
Qed.

Lemma accepted_rows_written (cols : list str) (rs : list (list str))
    (q : gset str) (rows : list (list str)) :
  cols ≠ [] → Forall (good_row q cols) rows →
  accepted_rows cols
    (((λ row, write_data_line (mkDataFrame cols rs) q row ++ [newline]) <$> rows)
     ++ [[newline]])
  = rows.
Proof.
  intros Hne. induction 1 as [|row rows Hrow _ IH]; [done|].
  rewrite fmap_cons. cbn [app]. rewrite accepted_rows_cons.
  destruct (written_data_line cols rs q row Hne Hrow) as (-> & -> & -> & _).
  cbn [andb]. by rewrite IH.
Qed.

Lemma written_data_lines (cols : list str) (rs : list (list str))
    (q : gset str) (rows : list (list str)) :
  cols ≠ [] → Forall (good_row q cols) rows →
  Forall (λ l, terminated l ∧ is_footer_start l = false)
    ((λ row, write_data_line (mkDataFrame cols rs) q row ++ [newline]) <$> rows).
Proof.
  intros Hne. induction 1 as [|row rows Hrow _ IH]; [constructor|].
  rewrite fmap_cons. constructor; [|done].
  by destruct (written_data_line cols rs q row Hne Hrow) as (_ & _ & _ & ? & ?).
Qed.

(** ** What the parser yields on the lines of a file *)

Lemma line_parts_clean (line : str) :
  terminated line ∨ unterminated line → Forall clean (line_parts line).
Proof.
  intros Hline%strip_no_newline. unfold line_parts, clean.
  pose proof (split_no_sep comma (strip line)) as Hcomma.
  pose proof (split_Forall _ comma (strip line) Hline) as Hnl.
  rewrite Forall_forall in *. intros f Hf.
  specialize (Hcomma f Hf). specialize (Hnl f Hf).
  rewrite Forall_forall in *. intros c Hc. split; auto.
Qed.

Lemma clean_strip_with (p : ascii → bool) (s : str) :
  clean s → clean (strip_with p s).
Proof. apply strip_with_Forall. Qed.

Lemma declared_good (d : str) :
  Forall clean (line_parts d) →
  clean (declared_marker d)
  ∧ Forall (λ c, clean c ∧ trimmed isspace c) (declared_columns d).
Proof.
  unfold declared_marker, declared_columns, col_parts_of.
  intros Hparts.
  assert (Forall (λ c, clean c ∧ trimmed isspace c)
            ((λ p, strip (strip_chars "!" p)) <$> line_parts d)) as Hall.
  { apply Forall_fmap. eapply Forall_impl; [exact Hparts|]. intros p Hp. cbn.
    split; [|apply strip_with_trimmed].
    by apply clean_strip_with, clean_strip_with. }
  destruct ((λ p, strip (strip_chars "!" p)) <$> line_parts d) as [|m cs].
  - split; constructor.
  - apply Forall_cons in Hall as [[Hm _] Hcs]. done.
Qed.

Lemma line_values_good (line : str) :
  Forall clean (line_parts line) → Forall good_value (line_values line).
Proof.
  unfold line_values, row_data_of. intros Hparts.
  apply Forall_fmap.
  assert (Forall clean (tail (line_parts line))) as Htail.
  { destruct (line_parts line); [done|]. by apply Forall_cons in Hparts as [_ ?]. }
  eapply Forall_impl; [exact Htail|]. intros p Hp. split.
  - by apply clean_strip_with.
  - apply strip_with_trimmed.
Qed.

Lemma accepted_rows_good (cols l : list str) :
  Forall (λ line, Forall clean (line_parts line)) l →
  Forall (λ row, length row = length cols ∧ Forall good_value row)
    (accepted_rows cols l).
Proof.
  induction 1 as [|line l Hline _ IH]; [constructor|].
  rewrite accepted_rows_cons.
  destruct (is_data_line line); [|done].
  destruct (row_accepted _ _) eqn:Hacc; [|done]. cbn [andb].
  constructor; [|done]. split.
  - by apply row_accepted_spec in Hacc as [_ ?].
  - by apply line_values_good.
Qed.

Lemma declaration_line_elem (l : list str) (d : str) :
  declaration_line l = Some d → d ∈ l.
Proof.
  induction l as [|line l IH]; [done|]. cbn.
  destruct (is_declaration line).
  - intros [= ->]. left.
  - intros Hd. right. auto.
Qed.

Lemma after_declaration_elem (l : list str) (line : str) :
  line ∈ after_declaration l → line ∈ l.
Proof.
  induction l as [|x l IH]; [done|]. cbn.
  destruct (is_declaration x); intros Hin; right; auto.
Qed.

Lemma trimmedb_spec (p : ascii → bool) (s : str) :
  trimmedb p s = true → trimmed p s.
Proof.
  unfold trimmedb, trimmed. intros [Hhd Hlast]%andb_true_iff. split.
  - intros c Hc. rewrite Hc in Hhd. by apply negb_true_iff.
  - intros c Hc. rewrite Hc in Hlast. by apply negb_true_iff.
Qed.

Lemma bind_Ok {A B} (a : A) (k : A → res B) : mbind k (Ok a) = k a.
Proof. done. Qed.

Lemma bang_line_declaration (s : str) :
  is_declaration ("!"%char :: s) = true.
Proof.
  unfold is_declaration, skipped, line_parts.
  pose proof (strip_with_head isspace ("!"%char :: s) "!"%char eq_refl eq_refl)
    as Hhd.
  fold (strip ("!"%char :: s)) in Hhd.
  destruct (strip ("!"%char :: s)) as [|c t]; [done|]. injection Hhd as ->.
  cbn. by destruct (split comma t).
Qed.

Lemma read_written_lines (T F : list str) (H C : str) (rest : list str) :
  T = H :: C :: rest → Forall body_line T → proper_lines F →
  match F with [] => True | f :: _ => is_footer_start f = true end →
  read_rpt_file (concat (T ++ F))
  = st ← parse_lines initial_state (C :: rest);
    Ok (Returned5 (build_frame st) (Some H) F (st_quotes st) (st_marker st)).
Proof.
  intros -> HT HF Hhead. unfold read_rpt_file.
  rewrite readlines_concat.
  2:{ apply proper_lines_app; [|done].
      eapply Forall_impl; [exact HT|]. by intros l [? _]. }
  destruct (footer_of_app (H :: C :: rest) F) as [-> ->]; [|done|done].
  eapply Forall_impl; [exact HT|]. by intros l [_ ?].
Qed.

(** Writing the table of a parsed file and reading the text again gives
    the same table and the same footer. *)
Lemma reparse_written (h0 : str) (F : list str) (cols : list str)
    (rws : list (list str)) (Q : gset str) (x : ascii) (mk : str) (b : bool) :
  body_line h0 → proper_lines F →
  match F with [] => True | f :: _ => is_footer_start f = true end →
  clean (x :: mk) → Forall good_name cols →
  Forall (good_row Q cols) rws → (rws ≠ [] → cols ≠ []) →
  let df := build_frame (mkParseState rws (Some cols) Q (Some (x :: mk)) b) in
  ∃ h' q' m',
    read_rpt_file (write_rpt_file df (Some h0) F Q (Some (x :: mk)))
    = Ok (Returned5 df h' F q' m').
Proof.
  intros [Hh0 Hh0'] HF Hhead Hmk Hcols Hrows Hne df.
  assert (df = build_frame (mkParseState rws (Some cols) Q (Some (x :: mk)) b))
    as Hbuild by done.
  clearbody df.
  rewrite write_rpt_file_lines. unfold written_lines.
  destruct (write_header_line df h0 Hh0 Hh0') as [HH HH'].
  set (H := write_header df (Some h0)) in *.
  set (C := write_col_line df (Some (x :: mk)) ++ [newline]).
  set (R := (λ row, write_data_line df Q row ++ [newline]) <$> rows df).
  assert (([H; C] ++ R ++ [[newline]] ++ F) = (H :: C :: R ++ [[newline]]) ++ F)
    as -> by (cbn [app]; by rewrite <- app_assoc).
  destruct rws as [|r rs].
  - (* the empty table *)
    assert (df = empty_frame) as Hdf by by rewrite Hbuild.
    assert (R = []) as -> by (subst R; by rewrite Hdf).
    assert (C = "!"%char :: (x :: mk) ++ [comma; newline]) as HC.
    { subst C. rewrite Hdf. unfold write_col_line. cbn [columns join].
      by rewrite app_nil_r, <- !app_assoc. }
    rewrite (read_written_lines (H :: C :: [] ++ [[newline]]) F H C
               [[newline]] eq_refl); [|..|done|done].
    2:{ apply Forall_cons. split; [done|].
        apply Forall_cons. split; [|by repeat constructor; exists []].
        split.
        - rewrite HC. exists ("!"%char :: (x :: mk) ++ [comma]).
          split; [cbn; by rewrite <- app_assoc|].
          constructor; [done|]. apply Forall_app. split; [|by repeat constructor].
          eapply Forall_impl; [exact Hmk|]. by intros ? [_ ?].
        - rewrite HC. by apply (not_footer_start _ "!"%char). }
    cbn [parse_lines].
    rewrite parse_line_declaration; [|done|rewrite HC; apply bang_line_declaration].
    cbn. rewrite parse_line_skipped by done. cbn. rewrite Hdf. eauto.
  - (* at least one row *)
    specialize (Hne ltac:(done)).
    assert (df = mkDataFrame cols (r :: rs)) as Hdf.
    { rewrite Hbuild. unfold build_frame. cbn. by destruct cols. }
    destruct (written_col_line cols (r :: rs) x mk Hne Hcols Hmk)
      as (Hdecl & Hdcols & HCt & HCf).
    rewrite <- Hdf in Hdecl, Hdcols, HCt, HCf. fold C in Hdecl, Hdcols, HCt, HCf.
    pose proof (written_data_lines cols (r :: rs) Q (r :: rs) Hne Hrows) as HR.
    pose proof (accepted_rows_written cols (r :: rs) Q (r :: rs) Hne Hrows) as Hacc.
    rewrite <- Hdf in HR, Hacc.
    assert (rows df = r :: rs) as Hrdf by by rewrite Hdf.
    rewrite <- Hrdf in HR at 1. rewrite <- Hrdf in Hacc at 1. fold R in HR, Hacc.
    rewrite (read_written_lines _ F H C (R ++ [[newline]]) eq_refl);
      [|..|done|done].
    2:{ constructor; [done|]. constructor; [done|].
        apply Forall_app. split; [done|].
        apply Forall_cons. split; [|constructor]. split; [by exists []|done]. }
    cbn [parse_lines]. rewrite parse_line_declaration by done.
    rewrite bind_Ok, parse_lines_after, bind_Ok, Hdcols, Hacc.
    unfold build_frame. cbn [st_all_data st_columns initial_state app].
    rewrite Hdf. destruct cols; [done|]. eauto.
Qed.

(** What the parser returns on a well-formed file. *)
Lemma well_formed_parse (content : str) :
  well_formed content = true →
  ∃ h0 cols rws x mk b,
    read_rpt_file content
    = Ok (Returned5
            (build_frame
               (mkParseState rws (Some cols)
                  (first_row_quotes (candidate_lines content)) (Some (x :: mk)) b))
            (Some h0) (footer_of (readlines content))
            (first_row_quotes (candidate_lines content)) (Some (x :: mk)))
    ∧ body_line h0 ∧ clean (x :: mk) ∧ Forall good_name cols
    ∧ Forall (λ row, length row = length cols ∧ Forall good_value row) rws
    ∧ (rws ≠ [] → cols ≠ []).
Proof.
  unfold well_formed.
  destruct (declaration_line (candidate_lines content)) as [d|] eqn:Hd; [|done].
  intros Hwf.
  apply andb_true_iff in Hwf as [Hwf Hbang].
  apply andb_true_iff in Hwf as [Hearly Hmk].
  apply bool_decide_eq_true in Hearly.
  apply negb_true_iff, bool_decide_eq_false in Hmk.
  pose proof (readlines_proper content) as Hproper.
  assert (∀ line, line ∈ candidate_lines content → Forall clean (line_parts line))
    as Hclean.
  { intros line Hin%data_lines_subset.
    by apply line_parts_clean, (proper_lines_elem (readlines content)). }
  destruct (readlines content) as [|h0 [|l1 ls]] eqn:Hlines.
  { unfold candidate_lines in Hd. by rewrite Hlines in Hd. }
  { unfold candidate_lines in Hd. rewrite Hlines, data_lines_short in Hd; [done|].
    cbn. lia. }
  assert (is_footer_start h0 = false) as Hh0.
  { apply not_true_is_false. intros Hfoot.
    unfold candidate_lines, data_lines_of in Hd. rewrite Hlines in Hd.
    cbn [find_footer_start] in Hd. by rewrite Hfoot in Hd. }
  destruct (declared_good d) as [Hmkc Hcolsc].
  { apply Hclean. by apply declaration_line_elem. }
  destruct (declared_marker d) as [|x mk] eqn:Hmarker; [done|].
  exists h0, (declared_columns d),
    (accepted_rows (declared_columns d) (after_declaration (candidate_lines content))),
    x, mk, (bool_decide (first_data_line (after_declaration (candidate_lines content)) = None)).
  split_and!.
  - rewrite read_rpt_file_outcome, Hlines. cbn [length Nat.leb head].
    unfold parse_outcome. rewrite Hearly, bind_Ok.
    unfold declared_state. rewrite Hd, Hmarker. done.
  - split; [|done]. by apply (proper_lines_head h0 l1 ls).
  - done.
  - apply Forall_forall. intros c Hc.
    rewrite Forall_forall in Hcolsc. destruct (Hcolsc c Hc) as [? ?].
    split_and!; [done..|].
    apply trimmedb_spec. rewrite forallb_forall in Hbang.
    by apply Hbang, list_elem_of_In.
  - apply accepted_rows_good. apply Forall_forall.
    intros line Hin%after_declaration_elem. by apply Hclean.
  - rewrite accepted_rows_counted. by destruct (declared_columns d).
Qed.

(** C1, as the code has it: for a file in which a column declaration
    with a non-empty marker precedes the data lines and no column name starts
    or ends with an exclamation mark, and in which no row ends in a value
    with trailing whitespace under an unquoted last column, parsing,
    writing and parsing again gives the same columns in the same order,
    the same rows with the same values, and the same footer lines. *)
Theorem round_trip (content : str) :
  well_formed content = true →
  last_values_kept content = true →
  ∃ df h f q m p',
    read_rpt_file content = Ok (Returned5 df h f q m)
    ∧ read_rpt_file (write_rpt_file df h f q m) = Ok p'
    ∧ length (columns (table_of p')) = length (columns df)
    ∧ columns (table_of p') = columns df
    ∧ length (rows (table_of p')) = length (rows df)
    ∧ rows (table_of p') = rows df
    ∧ footer_lines_of p' = f.
Proof.
  intros Hwf Hkept.
  destruct (well_formed_parse content Hwf)
    as (h0 & cols & rws & x & mk & b & Hread & Hh0 & Hmk & Hcols & Hrows & Hne).
  unfold last_values_kept in Hkept. rewrite Hread in Hkept.
  cbn [table_of quotes_of] in Hkept.
  set (Q := first_row_quotes (candidate_lines content)) in *.
  assert (Forall (good_row Q cols) rws) as Hgood.
  { destruct rws as [|r rs]; [constructor|].
    specialize (Hne ltac:(done)).
    assert (build_frame (mkParseState (r :: rs) (Some cols) Q (Some (x :: mk)) b)
            = mkDataFrame cols (r :: rs)) as Hdf.
    { unfold build_frame. cbn. by destruct cols. }
    rewrite Hdf in Hkept. cbn [columns rows] in Hkept.
    rewrite forallb_forall in Hkept. rewrite Forall_forall in Hrows.
    apply Forall_forall. intros row Hrow.
    destruct (Hrows row Hrow) as [Hlen Hvals].
    split_and!; [done..|]. by apply Hkept, list_elem_of_In. }
  destruct (reparse_written h0 (footer_of (readlines content)) cols rws Q x mk b)
    as (h' & q' & m' & Hwritten); try done.
  { apply footer_of_proper, readlines_proper. }
  { apply footer_of_head. }
  eexists _, _, _, _, _, _. split; [exact Hread|].
  split; [exact Hwritten|]. done.
Qed.

Lemma round_trip_witness :
  ∃ df h f q m p',
    read_rpt_file scenario = Ok (Returned5 df h f q m)
    ∧ read_rpt_file (write_rpt_file df h f q m) = Ok p'
    ∧ length (columns (table_of p')) = length (columns df)
    ∧ columns (table_of p') = columns df
    ∧ length (rows (table_of p')) = length (rows df)
    ∧ rows (table_of p') = rows df
    ∧ footer_lines_of p' = f.
Proof. apply (round_trip scenario); by vm_compute. Defined.

(** C1 as it is stated fails: the file below has the shape of the format,
    and its second row comes back without the trailing space of its
    value. *)
Lemma round_trip_counterexample :
  well_formed trailing_space_file = true
  ∧ ∃ df h f q m p',
      read_rpt_file trailing_space_file = Ok (Returned5 df h f q m)
      ∧ read_rpt_file (write_rpt_file df h f q m) = Ok p'
      ∧ rows df = [[py "x"]; [py "a "]]
      ∧ rows (table_of p') = [[py "x"]; [py "a"]]
      ∧ rows (table_of p') ≠ rows df.
Proof.
  split; [by vm_compute|].
  eexists _, _, _, _, _, _. split_and!; [by vm_compute..|]. by vm_compute.
Qed.

(** The two conditions of [well_formed] on the declaration line are needed:
    without a marker the first column name is read back as the marker, and
    a name that keeps an exclamation mark is read back without it. *)
Lemma round_trip_needs_declaration_shape :
  (well_formed no_marker_file = false
   ∧ ∃ df h f q m p',
       read_rpt_file no_marker_file = Ok (Returned5 df h f q m)
       ∧ read_rpt_file (write_rpt_file df h f q m) = Ok p'
       ∧ columns df = [py "A"; py "B"] ∧ columns (table_of p') = [])
  ∧ (well_formed bang_name_file = false
     ∧ ∃ df h f q m p',
         read_rpt_file bang_name_file = Ok (Returned5 df h f q m)
         ∧ read_rpt_file (write_rpt_file df h f q m) = Ok p'
         ∧ columns df = [py "!A"] ∧ columns (table_of p') = [py "A"]).
Proof.
  split; (split; [by vm_compute|]);
    eexists _, _, _, _, _, _; split_and!; by vm_compute.
Qed.

(** * Further properties of the code *)

(** ** The parser *)

Lemma accepted_rows_length (cols l : list str) :
  Forall (λ row, length row = length cols) (accepted_rows cols l).
Proof.
  induction l as [|line l IH]; [constructor|].
  rewrite accepted_rows_cons.
  destruct (is_data_line line); [|done].
  destruct (row_accepted _ _) eqn:Hacc; [|done]. cbn [andb].
  constructor; [|done]. by apply row_accepted_spec in Hacc as [_ ?].
Qed.

(** The table of a parsed file is empty, or made of the columns of the
    first declaration and of the rows kept after it. *)
Lemma parsed_table (content : str) (p : parsed) :
  read_rpt_file content = Ok p →
  table_of p = empty_frame
  ∨ ∃ d,
      declaration_line (candidate_lines content) = Some d
      ∧ declared_columns d ≠ []
      ∧ accepted_rows (declared_columns d)
          (after_declaration (candidate_lines content)) ≠ []
      ∧ table_of p
        = mkDataFrame (declared_columns d)
            (accepted_rows (declared_columns d)
               (after_declaration (candidate_lines content))).
Proof.
  rewrite read_rpt_file_outcome.
  destruct (length (readlines content) <=? 1)%nat; [intros [= <-]; by left|].
  assert (∀ q f,
            build_frame (declared_state (candidate_lines content) q f) = empty_frame
            ∨ ∃ d,
                declaration_line (candidate_lines content) = Some d
                ∧ declared_columns d ≠ []
                ∧ accepted_rows (declared_columns d)
                    (after_declaration (candidate_lines content)) ≠ []
                ∧ build_frame (declared_state (candidate_lines content) q f)
                  = mkDataFrame (declared_columns d)
                      (accepted_rows (declared_columns d)
                         (after_declaration (candidate_lines content)))) as Hframe.
  { intros q f. unfold declared_state, build_frame.
    destruct (declaration_line (candidate_lines content)) as [d|]; [|by left].
    cbn. destruct (accepted_rows _ _) as [|r rs] eqn:Hrows; [by left|].
    destruct (declared_columns d) as [|c cs] eqn:Hcols; [by left|].
    right. exists d. by rewrite Hcols, Hrows. }
  unfold parse_outcome.
  destruct (first_data_line _) as [early|].
  - destruct (has_quoted_value early); [done|]. intros [= <-]. apply Hframe.
  - intros [= <-]. apply Hframe.
Qed.

(** X1: every row of the table that [read_rpt_file] returns has exactly
    one cell per column of the table. *)
Theorem parsed_table_rectangular (content : str) (p : parsed) :
  read_rpt_file content = Ok p → rectangular (table_of p).
Proof.
  intros [->|(d & _ & _ & _ & ->)]%parsed_table; [constructor|].
  apply accepted_rows_length.
Qed.

Lemma parsed_table_rectangular_witness :
  ∃ p, read_rpt_file scenario = Ok p ∧ rectangular (table_of p).
Proof.
  eexists. split; [by vm_compute|].
  apply (parsed_table_rectangular scenario). by vm_compute.
Defined.

(** X2: the table that [read_rpt_file] returns has no column exactly when
    it has no row: a declaration that no data line matches is lost.  When
    the table has rows, its columns are the names of the first declaration
    line, in their order. *)
Theorem parsed_table_columns (content : str) (p : parsed) :
  read_rpt_file content = Ok p →
  (columns (table_of p) = [] ↔ rows (table_of p) = [])
  ∧ (rows (table_of p) ≠ [] →
     ∃ d, declaration_line (candidate_lines content) = Some d
          ∧ columns (table_of p) = declared_columns d).
Proof.
  intros [->|(d & Hd & Hcols & Hrows & ->)]%parsed_table; cbn.
  - split; [done|]. by intros ?.
  - split; [split; by intros ?|]. intros _. by exists d.
Qed.

Lemma parsed_table_columns_witness :
  ∃ p, read_rpt_file (rpt "2 x|!1,A,B|*,only-one|## end|") = Ok p
       ∧ columns (table_of p) = [] ∧ rows (table_of p) = [].
Proof.
  eexists. split; [by vm_compute|].
  destruct (parsed_table_columns (rpt "2 x|!1,A,B|*,only-one|## end|") _
              ltac:(by vm_compute)) as [Hiff _].
  split; [apply Hiff|]; by vm_compute.
Defined.

(** X5: once the columns are declared, the parsing loop raises on no line,
    keeps the declared columns and the marker whatever lines follow (a
    second declaration line is ignored), and only appends rows. *)
Theorem declared_columns_final (st : parse_state) (cols : list str)
    (l : list str) :
  st_columns st = Some cols →
  ∃ st', parse_lines st l = Ok st'
         ∧ st_columns st' = Some cols
         ∧ st_marker st' = st_marker st
         ∧ st_all_data st `prefix_of` st_all_data st'.
Proof.
  destruct st as [a c q m f]. cbn. intros ->.
  rewrite parse_lines_after. eexists. split; [done|]. cbn.
  split_and!; [done..|]. by apply prefix_app_r.
Qed.

Lemma declared_columns_final_witness :
  ∃ st', parse_lines (mkParseState [] (Some [py "A"]) ∅ (Some (py "1")) true)
           [rpt "!2,B,C|"; rpt "*,'x'|"; rpt "*,1,2|"]
         = Ok st'
         ∧ st_columns st' = Some [py "A"]
         ∧ st_marker st' = Some (py "1")
         ∧ [] `prefix_of` st_all_data st'.
Proof.
  apply (declared_columns_final
           (mkParseState [] (Some [py "A"]) ∅ (Some (py "1")) true) [py "A"]).
  done.
Defined.

Lemma quoted_columns_declared (cols fields : list str) (c : str) :
  c ∈ quoted_columns cols fields → c ∈ cols.
Proof.
  unfold quoted_columns. rewrite elem_of_list_to_set, list_elem_of_fmap.
  intros ([c' p] & -> & [_ Hin%elem_of_zip_l]%list_elem_of_filter). done.
Qed.

(** X6: the set of quoted columns that [read_rpt_file] returns only holds
    names of the first declaration line. *)
Theorem parsed_quotes_declared (content : str) (p : parsed) (c : str) :
  read_rpt_file content = Ok p →
  c ∈ quotes_of p →
  ∃ d, declaration_line (candidate_lines content) = Some d
       ∧ c ∈ declared_columns d.
Proof.
  intros Hread. rewrite (read_rpt_file_quotes content p Hread).
  unfold first_row_quotes.
  destruct (first_data_line (before_declaration _)); [by intros ?%elem_of_empty|].
  destruct (declaration_line _) as [d|]; [|by intros ?%elem_of_empty].
  destruct (first_data_line (after_declaration _)) as [line|];
    [|by intros ?%elem_of_empty].
  intros Hc%quoted_columns_declared. by exists d.
Qed.

Lemma parsed_quotes_declared_witness :
  ∃ d, declaration_line (candidate_lines scenario) = Some d
       ∧ py "NAME" ∈ declared_columns d.
Proof.
  apply (parsed_quotes_declared scenario
           (Returned5 scenario_table (Some (rpt "3 demo|")) [rpt "## end|"]
              {[ py "NAME" ]} (Some (py "1")))).
  - by vm_compute.
  - cbn. by apply elem_of_singleton.
Defined.

(** ** The footer *)

Lemma concat_readlines (s : str) : concat (readlines s) = s.
Proof.
  induction s as [|c s IH]; [done|]. cbn [readlines].
  case_bool_decide; [cbn; by rewrite IH|].
  destruct (readlines s) as [|l ls]; cbn in *; by rewrite <- IH.
Qed.

Lemma find_footer_start_none (k : nat) (lines : list str) :
  find_footer_start k lines = None →
  Forall (λ l, is_footer_start l = false) lines.
Proof.
  revert k. induction lines as [|l lines IH]; intros k;
    cbn [find_footer_start]; [constructor|].
  destruct (is_footer_start l) eqn:Hl; [done|]. intros Hk. constructor; eauto.
Qed.

Lemma footer_of_split (lines : list str) :
  ∃ before, lines = before ++ footer_of lines
            ∧ Forall (λ l, is_footer_start l = false) before.
Proof.
  unfold footer_of.
  destruct (find_footer_start 0 lines) as [i|] eqn:Hi.
  - apply find_footer_start_Some in Hi as (j & f & -> & _ & _ & Hbefore).
    exists (take j lines). by rewrite take_drop.
  - exists lines. rewrite app_nil_r. eauto using find_footer_start_none.
Qed.

Lemma read_rpt_file_footer (content : str) (df : DataFrame)
    (h : option str) (f : list str) (q : gset str) (m : option str) :
  read_rpt_file content = Ok (Returned5 df h f q m) →
  f = footer_of (readlines content) ∧ h = head (readlines content)
  ∧ (1 < length (readlines content))%nat.
Proof.
  unfold read_rpt_file.
  destruct (length (readlines content) <=? 1)%nat eqn:Hlen; [done|].
  apply Nat.leb_gt in Hlen.
  destruct (parse_lines _ _) as [st|e]; [|done]. cbn. by intros [= <- <- <- <- <-].
Qed.

(** X3: the footer lines that [read_rpt_file] returns with five components
    are the end of the file, character for character: the file is the
    lines before the footer followed by the footer lines, none of the lines
    before starts (once stripped) with two hash signs, and the first footer
    line does. *)
Theorem footer_verbatim (content : str) (df : DataFrame) (h : option str)
    (f : list str) (q : gset str) (m : option str) :
  read_rpt_file content = Ok (Returned5 df h f q m) →
  ∃ before,
    readlines content = before ++ f
    ∧ content = concat before ++ concat f
    ∧ Forall (λ l, is_footer_start l = false) before
    ∧ match f with [] => True | l :: _ => is_footer_start l = true end.
Proof.
  intros (-> & _ & _)%read_rpt_file_footer.
  destruct (footer_of_split (readlines content)) as (before & Hlines & Hbefore).
  exists before. split_and!; [done| |done|apply footer_of_head].
  by rewrite <- concat_app, <- Hlines, concat_readlines.
Qed.

Lemma footer_verbatim_witness :
  ∃ before,
    readlines scenario = before ++ [rpt "## end|"]
    ∧ scenario = concat before ++ concat [rpt "## end|"]
    ∧ Forall (λ l, is_footer_start l = false) before
    ∧ is_footer_start (rpt "## end|") = true.
Proof.
  apply (footer_verbatim scenario scenario_table (Some (rpt "3 demo|"))
           [rpt "## end|"] {[ py "NAME" ]} (Some (py "1"))).
  by vm_compute.
Defined.

(** X4: the scan for the footer starts at the header line.  In a file of
    two lines or more whose header starts (once stripped) with two hash
    signs, the whole file is the footer, the table is empty and there is
    no marker; what is written for it is a new header, an empty column
    line and a blank line, followed by the file in full. *)
Theorem header_starts_footer (content : str) (h0 l1 : str) (rest : list str) :
  readlines content = h0 :: l1 :: rest →
  is_footer_start h0 = true →
  read_rpt_file content
  = Ok (Returned5 empty_frame (Some h0) (h0 :: l1 :: rest) ∅ None)
  ∧ write_rpt_file empty_frame (Some h0) (h0 :: l1 :: rest) ∅ None
    = write_header empty_frame (Some h0) ++ "!" ++ [newline] ++ [newline]
      ++ content.
Proof.
  intros Hlines Hh0. split.
  - unfold read_rpt_file, footer_of, data_lines_of. rewrite Hlines.
    cbn [length Nat.leb head find_footer_start]. by rewrite Hh0.
  - unfold write_rpt_file. rewrite <- Hlines, concat_readlines. done.
Qed.

Lemma header_starts_footer_witness :
  read_rpt_file (rpt "## 3 x|!1,A|*,1|")
  = Ok (Returned5 empty_frame (Some (rpt "## 3 x|"))
          [rpt "## 3 x|"; rpt "!1,A|"; rpt "*,1|"] ∅ None)
  ∧ write_rpt_file empty_frame (Some (rpt "## 3 x|"))
      [rpt "## 3 x|"; rpt "!1,A|"; rpt "*,1|"] ∅ None
    = write_header empty_frame (Some (rpt "## 3 x|")) ++ "!" ++ [newline]
      ++ [newline] ++ rpt "## 3 x|!1,A|*,1|".
Proof.
  apply (header_starts_footer (rpt "## 3 x|!1,A|*,1|") (rpt "## 3 x|")
           (rpt "!1,A|") [rpt "*,1|"]); by vm_compute.
Defined.

(** ** The writer *)

Lemma split_whitespace_nonempty (s : str) :
  Forall (λ t, t ≠ []) (split_whitespace s).
Proof.
  induction s as [|c s IH]; cbn; [constructor|].
  destruct (isspace c) eqn:Hc; [done|].
  destruct s as [|d s]; [by repeat constructor|].
  destruct (isspace d) eqn:Hd; [by repeat constructor|].
  destruct (split_whitespace (d :: s)) as [|t ts]; [by repeat constructor|].
  inversion IH; subst. by repeat constructor.
Qed.

Lemma split_whitespace_space (c : ascii) (s : str) :
  isspace c = true → split_whitespace (c :: s) = split_whitespace s.
Proof. intros Hc. cbn. by rewrite Hc. Qed.

Lemma split_whitespace_token (t : str) :
  t ≠ [] → Forall (λ c, isspace c = false) t → split_whitespace t = [t].
Proof.
  intros Hne Ht. induction Ht as [|x t Hx Ht IH]; [done|].
  cbn [split_whitespace]. rewrite Hx.
  destruct t as [|y t]; [done|].
  apply Forall_cons in Ht as [Hy _]. rewrite Hy. by rewrite IH.
Qed.

Lemma split_whitespace_token_space (t : str) (c : ascii) (s : str) :
  t ≠ [] → Forall (λ c, isspace c = false) t → isspace c = true →
  split_whitespace (t ++ c :: s) = t :: split_whitespace s.
Proof.
  intros Hne Ht Hc. induction Ht as [|x t Hx Ht IH]; [done|].
  cbn [app split_whitespace]. rewrite Hx.
  destruct t as [|y t].
  - cbn [app]. rewrite Hc. by rewrite split_whitespace_space.
  - apply Forall_cons in Ht as [Hy Ht]. cbn [app]. rewrite Hy.
    cbn [app] in IH. by rewrite IH.
Qed.

(** Splitting at whitespace what was joined with single spaces gives the
    tokens back. *)
Lemma split_whitespace_join (toks : list str) :
  Forall (λ t, t ≠ [] ∧ Forall (λ c, isspace c = false) t) toks →
  split_whitespace (join " " toks) = toks.
Proof.
  induction 1 as [|t toks [Hne Ht] Htoks IH]; [done|].
  destruct toks as [|u toks]; [by apply split_whitespace_token|].
  rewrite join_cons. py_lit. cbn [app].
  by rewrite split_whitespace_token_space, IH.
Qed.

Lemma join_head (sep : str) (t : str) (toks : list str) (c : ascii) :
  head t = Some c → head (join sep (t :: toks)) = Some c.
Proof.
  destruct t as [|x t]; [done|]. intros [= ->]. by destruct toks.
Qed.

Lemma join_last (sep : str) (toks : list str) :
  Forall (λ t, t ≠ []) toks →
  last (join sep toks) = last toks ≫= last.
Proof.
  induction 1 as [|t toks Ht Htoks IH]; [done|].
  destruct toks as [|u toks]; [done|].
  rewrite join_cons, !last_app, IH, last_cons_cons.
  destruct (last (u :: toks)) as [t'|] eqn:Hlast;
    [|by apply last_None in Hlast]. cbn.
  apply last_Some_elem_of in Hlast. rewrite Forall_forall in Htoks.
  specialize (Htoks t' Hlast) as Hne.
  apply last_is_Some in Hne as [z Hz]. by rewrite Hz.
Qed.

Lemma join_tokens_trimmed (toks : list str) :
  Forall (λ t, t ≠ [] ∧ Forall (λ c, isspace c = false) t) toks →
  trimmed isspace (join " " toks).
Proof.
  intros Htoks. split.
  - destruct toks as [|t toks]; [done|].
    apply Forall_cons in Htoks as [[Hne Ht] _].
    destruct t as [|x t]; [done|]. apply Forall_cons in Ht as [Hx _].
    rewrite (join_head _ _ _ x) by done. by intros c [= <-].
  - intros c. rewrite join_last.
    2:{ eapply Forall_impl; [exact Htoks|]. by intros t [? _]. }
    destruct (last toks) as [t|] eqn:Hlast; [|done]. cbn. intros Hc.
    apply last_Some_elem_of in Hlast, Hc. rewrite Forall_forall in Htoks.
    destruct (Htoks t Hlast) as [_ Ht]. rewrite Forall_forall in Ht. auto.
Qed.

Lemma str_of_nat_token (n : nat) :
  str_of_nat n ≠ [] ∧ Forall (λ c, isspace c = false) (str_of_nat n).
Proof.
  split; [apply str_of_nat_nonempty|].
  eapply Forall_impl; [apply str_of_uint_digits|].
  intros c Hc. by apply digit_plain.
Qed.

(** X7: when the header line has at least one token, the header that is
    written has the column count of the table as first token and the other
    tokens of the header line after it, in their order; the whitespace
    between tokens becomes one space. *)
Theorem written_header_tokens (df : DataFrame) (h t : str) (parts : list str) :
  split_whitespace (strip h) = t :: parts →
  write_header df (Some h)
  = join " " (str_of_nat (length (columns df)) :: parts) ++ [newline]
  ∧ split_whitespace (strip (write_header df (Some h)))
    = str_of_nat (length (columns df)) :: parts.
Proof.
  intros Htoks.
  assert (Forall (λ t, t ≠ [] ∧ Forall (λ c, isspace c = false) t)
            (str_of_nat (length (columns df)) :: parts)) as Hall.
  { constructor; [apply str_of_nat_token|].
    pose proof (split_whitespace_nonempty (strip h)) as Hne.
    pose proof (split_whitespace_tokens (strip h)) as Hws.
    rewrite Htoks in Hne, Hws.
    apply Forall_cons in Hne as [_ Hne]. apply Forall_cons in Hws as [_ Hws].
    rewrite Forall_forall in *. auto. }
  assert (write_header df (Some h)
          = join " " (str_of_nat (length (columns df)) :: parts) ++ [newline])
    as Hwritten.
  { unfold write_header. destruct h as [|c h]; [done|]. by rewrite Htoks. }
  split; [done|].
  rewrite Hwritten, strip_line by by apply join_tokens_trimmed.
  by apply split_whitespace_join.
Qed.

Lemma written_header_tokens_witness :
  write_header scenario_table (Some (rpt " 7   demo  file |"))
  = join " " (str_of_nat 3 :: [py "demo"; py "file"]) ++ [newline]
  ∧ split_whitespace (strip (write_header scenario_table
                                (Some (rpt " 7   demo  file |"))))
    = str_of_nat 3 :: [py "demo"; py "file"].
Proof.
  apply (written_header_tokens scenario_table (rpt " 7   demo  file |") (py "7")).
  by vm_compute.
Defined.

Lemma split_whitespace_nil (s : str) :
  split_whitespace s = [] → all_chars isspace s.
Proof.
  induction s as [|c s IH]; [constructor|]. cbn [split_whitespace].
  destruct (isspace c) eqn:Hc; [intros Hs; constructor; auto|].
  destruct s as [|d s]; [done|].
  destruct (isspace d); [done|]. by destruct (split_whitespace (d :: s)).
Qed.

Lemma trimmed_all_nil (p : ascii → bool) (s : str) :
  trimmed p s → all_chars p s → s = [].
Proof.
  destruct s as [|c s]; [done|]. intros [Hhd _] Hall.
  apply Forall_cons in Hall as [Hc _]. rewrite (Hhd c) in Hc; done.
Qed.

(** The header that is written is one line and does not start the
    footer, whatever the header line was. *)
Lemma written_header_body (df : DataFrame) (h0 : str) :
  terminated h0 → body_line (write_header df (Some h0)).
Proof.
  intros Hh0.
  destruct (split_whitespace (strip h0)) as [|t parts] eqn:Htoks.
  - apply write_header_line; [done|].
    apply split_whitespace_nil in Htoks.
    pose proof (strip_with_trimmed isspace h0) as Htrim.
    unfold is_footer_start. fold (strip h0) in Htrim.
    by rewrite (trimmed_all_nil isspace (strip h0)).
  - assert (write_header df (Some h0)
            = join " " (str_of_nat (length (columns df)) :: parts) ++ [newline])
      as ->.
    { unfold write_header.
      destruct h0 as [|c h0]; [by destruct Hh0 as ([|??] & ? & _)|].
      by rewrite Htoks. }
    pose proof (split_whitespace_tokens (strip h0)) as Hws.
    rewrite Htoks in Hws. apply Forall_cons in Hws as [_ Hws].
    destruct (str_of_nat_token (length (columns df))) as [Hne Hdig].
    split.
    + eexists. split; [done|]. apply join_Forall; [by repeat constructor|].
      constructor.
      * eapply Forall_impl; [exact Hdig|]. apply not_space_not_newline.
      * eapply Forall_impl; [exact Hws|]. intros tok Htok.
        eapply Forall_impl; [exact Htok|]. apply not_space_not_newline.
    + pose proof (str_of_uint_digits (Nat.to_uint (length (columns df)))) as Hd.
      fold (str_of_nat (length (columns df))) in Hd.
      destruct (str_of_nat (length (columns df))) as [|d ds]; [done|].
      apply Forall_cons in Hd as [Hd _]. apply digit_plain in Hd as (? & ? & ?).
      apply (not_footer_start _ d); [|done..]. by destruct parts.
Qed.

Lemma format_value_one_line (q : gset str) (c v : str) :
  one_line v → one_line (format_value q c v).
Proof.
  intros Hv. unfold format_value, one_line.
  case_bool_decide; [|done]. rewrite !Forall_app. by repeat constructor.
Qed.

(** The column line that is written is one line, does not start the
    footer and is read as a declaration. *)
Lemma written_col_line_body (df : DataFrame) (m : option str) :
  Forall one_line (columns df) → (∀ mk, m = Some mk → one_line mk) →
  body_line (write_col_line df m ++ [newline])
  ∧ is_declaration (write_col_line df m ++ [newline]) = true.
Proof.
  intros Hcols Hm.
  assert (∃ rest, write_col_line df m = "!"%char :: rest ∧ one_line rest)
    as (rest & -> & Hrest).
  { assert (one_line (join "," (columns df))) as Hjoin.
    { apply join_Forall; [by repeat constructor|done]. }
    unfold write_col_line. destruct m as [[|c mk]|]; py_lit.
    - eexists. split; [done|]. done.
    - eexists. split; [done|]. apply Forall_app. split; [by apply Hm|].
      by constructor.
    - eexists. split; [done|]. done. }
  split; [split|].
  - exists ("!"%char :: rest). split; [done|]. by constructor.
  - by apply (not_footer_start _ "!"%char).
  - apply bang_line_declaration.
Qed.

Lemma written_rows_body (df : DataFrame) (q : gset str) :
  Forall (Forall one_line) (rows df) →
  Forall body_line
    ((λ row, write_data_line df q row ++ [newline]) <$> rows df).
Proof.
  intros Hrows. apply Forall_fmap.
  eapply Forall_impl; [exact Hrows|]. intros row Hrow.
  change (body_line (write_data_line df q row ++ [newline])).
  set (J := join "," (zip_with (format_value q) (columns df) row)).
  assert (one_line J) as HJ.
  { apply join_Forall; [by repeat constructor|].
    apply zip_with_Forall. eapply Forall_impl; [exact Hrow|].
    intros v Hv c. by apply format_value_one_line. }
  assert (write_data_line df q row = "*"%char :: ","%char :: J) as -> by done.
  split.
  - exists ("*"%char :: ","%char :: J). split; [done|]. by repeat constructor.
  - by apply (not_footer_start _ "*"%char).
Qed.

(** What [read_rpt_file] makes of a written text: the lines written
    before the footer are read as header, declaration and data lines, and
    the footer lines are found again. *)
Lemma written_text_read (df : DataFrame) (h0 : str) (F : list str)
    (q : gset str) (m : option str) :
  terminated h0 → one_line_table df → (∀ mk, m = Some mk → one_line mk) →
  proper_lines F →
  match F with [] => True | l :: _ => is_footer_start l = true end →
  ∃ df' q' m',
    read_rpt_file (write_rpt_file df (Some h0) F q m)
    = Ok (Returned5 df' (Some (write_header df (Some h0))) F q' m').
Proof.
  intros Hh0 [Hcols Hrows] Hm HF Hhead.
  rewrite write_rpt_file_lines. unfold written_lines.
  set (H := write_header df (Some h0)).
  set (C := write_col_line df m ++ [newline]).
  set (R := (λ row, write_data_line df q row ++ [newline]) <$> rows df).
  assert (([H; C] ++ R ++ [[newline]] ++ F) = (H :: C :: R ++ [[newline]]) ++ F)
    as -> by (cbn [app]; by rewrite <- app_assoc).
  destruct (written_col_line_body df m Hcols Hm) as [HC Hdecl]. fold C in HC, Hdecl.
  rewrite (read_written_lines _ F H C (R ++ [[newline]]) eq_refl);
    [|..|done|done].
  2:{ constructor; [by apply written_header_body|]. constructor; [done|].
      apply Forall_app. split; [by apply written_rows_body|].
      apply Forall_cons. split; [|constructor]. split; [by exists []|done]. }
  cbn [parse_lines]. rewrite parse_line_declaration by done.
  rewrite bind_Ok, parse_lines_after, bind_Ok. eauto.
Qed.

(** X8: for every table whose column names and cells hold no newline,
    every one-line marker, every header line and every footer as the
    parser returns it, the text that [write_rpt_file] writes is read by
    [read_rpt_file] without error, with five components: the header line
    is the header that was written, and the footer lines are the footer
    lines that were given. *)
Theorem written_text_read_back (df : DataFrame) (h0 : str) (F : list str)
    (q : gset str) (m : option str) :
  terminated h0 → one_line_table df → (∀ mk, m = Some mk → one_line mk) →
  proper_lines F →
  match F with [] => True | l :: _ => is_footer_start l = true end →
  ∃ df' q' m',
    read_rpt_file (write_rpt_file df (Some h0) F q m)
    = Ok (Returned5 df' (Some (write_header df (Some h0))) F q' m').
Proof. apply written_text_read. Qed.

Lemma written_text_read_back_witness :
  ∃ df' q' m',
    read_rpt_file
      (write_rpt_file scenario_table (Some (rpt "3 demo|")) [rpt "## end|"]
         {[ py "NAME" ]} (Some (py "1")))
    = Ok (Returned5 df'
            (Some (write_header scenario_table (Some (rpt "3 demo|"))))
            [rpt "## end|"] q' m').
Proof.
  apply (written_text_read_back scenario_table (rpt "3 demo|") [rpt "## end|"]
           {[ py "NAME" ]} (Some (py "1"))).
  - exists (rpt "3 demo"). split; [done|]. by vm_compute; repeat constructor.
  - split; vm_compute; repeat constructor; done.
  - intros mk [= <-]. by repeat constructor.
  - apply proper_cons; [|constructor].
    exists (rpt "## end"). split; [done|]. by vm_compute; repeat constructor.
  - done.
Defined.

(** ** The script on one file *)

Lemma candidate_lines_clean (content line : str) :
  line ∈ candidate_lines content → Forall clean (line_parts line).
Proof.
  intros Hin%data_lines_subset.
  apply line_parts_clean, (proper_lines_elem (readlines content));
    [apply readlines_proper|done].
Qed.

Lemma clean_one_line (s : str) : clean s → one_line s.
Proof. intros Hs. eapply Forall_impl; [exact Hs|]. by intros c [_ ?]. Qed.

Lemma parsed_one_line (content : str) (p : parsed) :
  read_rpt_file content = Ok p → one_line_table (table_of p).
Proof.
  intros [->|(d & Hd & _ & _ & ->)]%parsed_table; [by split; constructor|].
  split; cbn.
  - destruct (declared_good d) as [_ Hcols].
    { by apply (candidate_lines_clean content), declaration_line_elem. }
    eapply Forall_impl; [exact Hcols|]. intros c [Hc _]. by apply clean_one_line.
  - eapply Forall_impl.
    { apply (accepted_rows_good (declared_columns d)). apply Forall_forall.
      intros line Hin%after_declaration_elem.
      by apply (candidate_lines_clean content). }
    intros row [_ Hrow]. eapply Forall_impl; [exact Hrow|].
    intros v [Hv _]. by apply clean_one_line.
Qed.

Lemma declared_state_marker (l : list str) (q : gset str) (f : bool) :
  st_marker (declared_state l q f) = declared_marker <$> declaration_line l.
Proof. unfold declared_state. by destruct (declaration_line l). Qed.

Lemma read_rpt_file_marker (content : str) (df : DataFrame) (h : option str)
    (f : list str) (q : gset str) (m : option str) :
  read_rpt_file content = Ok (Returned5 df h f q m) →
  m = declared_marker <$> declaration_line (candidate_lines content).
Proof.
  rewrite read_rpt_file_outcome.
  destruct (length (readlines content) <=? 1)%nat; [done|].
  unfold parse_outcome. destruct (first_data_line _) as [early|].
  - destruct (has_quoted_value early); [done|].
    rewrite bind_Ok. intros Heq. injection Heq as _ _ _ _ <-. apply declared_state_marker.
  - rewrite bind_Ok. intros Heq. injection Heq as _ _ _ _ <-. apply declared_state_marker.
Qed.

Lemma parsed_marker_one_line (content : str) (df : DataFrame)
    (h : option str) (f : list str) (q : gset str) (m : option str) (mk : str) :
  read_rpt_file content = Ok (Returned5 df h f q m) →
  m = Some mk → one_line mk.
Proof.
  intros ->%read_rpt_file_marker.
  destruct (declaration_line _) as [d|] eqn:Hd; [|done]. intros [= <-].
  destruct (declared_good d) as [Hm _].
  { by apply (candidate_lines_clean content), declaration_line_elem. }
  by apply clean_one_line.
Qed.

Lemma parsed_header (content : str) (df : DataFrame) (h : option str)
    (f : list str) (q : gset str) (m : option str) :
  read_rpt_file content = Ok (Returned5 df h f q m) →
  ∃ h0, h = Some h0 ∧ terminated h0.
Proof.
  intros (_ & -> & Hlen)%read_rpt_file_footer.
  pose proof (readlines_proper content) as Hproper.
  destruct (readlines content) as [|h0 [|l1 ls]]; [cbn in Hlen; lia..|].
  exists h0. split; [done|]. by apply (proper_lines_head h0 l1 ls).
Qed.

(** The table operations keep names and cells on one line. *)
Lemma set_column_one_line (df : DataFrame) (c v : str) :
  one_line_table df → one_line c → one_line v →
  one_line_table (set_column df c v).
Proof.
  intros [Hcols Hrows] Hc Hv. unfold set_column.
  destruct (col_index df c) as [i|]; split; cbn; try done.
  - apply Forall_fmap. eapply Forall_impl; [exact Hrows|].
    intros r Hr. by apply Forall_insert.
  - apply Forall_app. split; [done|]. by constructor.
  - apply Forall_fmap. eapply Forall_impl; [exact Hrows|].
    intros r Hr. apply Forall_app. split; [done|]. by constructor.
Qed.

Lemma drop_column_one_line (df : DataFrame) (c : str) :
  one_line_table df → one_line_table (drop_column df c).
Proof.
  intros [Hcols Hrows]. unfold drop_column.
  destruct (col_index df c) as [i|]; split; cbn; try done.
  - by apply Forall_delete.
  - apply Forall_fmap. eapply Forall_impl; [exact Hrows|].
    intros r Hr. by apply Forall_delete.
Qed.

Lemma loc_set_one_line (df : DataFrame) (mask : list bool) (c v : str) :
  one_line_table df → one_line v → one_line_table (loc_set df mask c v).
Proof.
  intros [Hcols Hrows] Hv. unfold loc_set.
  destruct (col_index df c) as [i|]; split; cbn; try done.
  revert mask. induction Hrows as [|r rs Hr _ IH]; intros [|b mask];
    cbn; try constructor; auto.
  destruct b; [by apply Forall_insert|done].
Qed.

Section script_facts.
Context {num : Type} {Hnum : EqDecision num}.
Variable to_numeric : str → option (numeric num).

Lemma apply_update_one_line (df : DataFrame) (row : instruction) :
  one_line_table df → one_line (ColumnName row) → one_line (NewValue row) →
  one_line_table (apply_update to_numeric df row).
Proof.
  intros Hdf Hc Hv. unfold apply_update.
  destruct (negb _); [done|].
  destruct (LookupColumn row) as [lc|], (LookupValue row) as [lv|],
    (CurrentValue row) as [cv|];
    try destruct (has_column df lc);
    auto using loc_set_one_line, set_column_one_line.
Qed.

Lemma apply_updates_one_line (df : DataFrame) (l : list instruction)
    (q : gset str) :
  Forall (λ row, one_line (ColumnName row) ∧ one_line (NewValue row)) l →
  one_line_table df →
  one_line_table (apply_updates to_numeric df l q).1.
Proof.
  intros Hl Hdf. unfold apply_updates.
  assert (∀ name, Forall (λ row, one_line (ColumnName row)
                                 ∧ one_line (NewValue row)) (actions name l))
    as Hactions.
  { intros name. unfold actions. apply Forall_forall.
    intros row [_ Hin]%list_elem_of_filter. rewrite Forall_forall in Hl. auto. }
  assert (one_line_table
            (foldl (apply_add to_numeric) (df, q) (actions "add" l)).1) as Hadd.
  { generalize (Hactions "add"). generalize (actions "add" l).
    intros adds. revert df q Hdf.
    induction adds as [|row adds IH]; intros df q Hdf Hadds; [done|].
    apply Forall_cons in Hadds as [[Hc Hv] Hadds]. cbn [foldl].
    unfold apply_add at 2. apply IH; [|done].
    by apply set_column_one_line. }
  destruct (foldl (apply_add to_numeric) _ _) as [df1 q1].
  change (one_line_table df1) in Hadd.
  change (one_line_table
            (foldl (apply_update to_numeric)
               (foldl apply_delete df1 (actions "delete" l))
               (actions "update" l))).
  assert (one_line_table (foldl apply_delete df1 (actions "delete" l))) as Hdel.
  { generalize (actions "delete" l). intros dels. revert df1 Hadd.
    induction dels as [|row dels IH]; intros df1 Hdf1; [done|].
    cbn [foldl]. apply IH. unfold apply_delete.
    destruct (has_column _ _); [by apply drop_column_one_line|done]. }
  generalize (Hactions "update"). generalize (actions "update" l).
  intros upds. revert Hdel. generalize (foldl apply_delete df1 (actions "delete" l)).
  induction upds as [|row upds IH]; intros df2 Hdf2 Hupds; [done|].
  apply Forall_cons in Hupds as [[Hc Hv] Hupds]. cbn [foldl].
  apply IH; [|done]. by apply apply_update_one_line.
Qed.
End script_facts.

Section script_theorems.
Context {num : Type} {Hnum : EqDecision num}.
Variable to_numeric : str → option (numeric num).

(** X9: whenever the script writes an output for a file, with or without
    instructions, [read_rpt_file] reads this output again without error
    and finds the footer lines of the input file, provided the column
    names and the new values of the instructions hold no newline. *)
Theorem script_output_read_back (update_values_df : option (list instruction))
    (content text : str) :
  (∀ l, update_values_df = Some l →
        Forall (λ row, one_line (ColumnName row) ∧ one_line (NewValue row)) l) →
  process_file to_numeric update_values_df content = Written text →
  ∃ df h f q m df' h' q' m',
    read_rpt_file content = Ok (Returned5 df h f q m)
    ∧ read_rpt_file text = Ok (Returned5 df' h' f q' m').
Proof.
  intros Hinstr. unfold process_file.
  destruct (read_rpt_file content) as [[|df h f q m]|[]] eqn:Hread; [done| |done].
  destruct (parsed_header content df h f q m Hread) as (h0 & -> & Hh0).
  pose proof (parsed_one_line content _ Hread) as Hdf. cbn [table_of] in Hdf.
  pose proof (λ mk, parsed_marker_one_line content df _ f q m mk Hread) as Hm.
  destruct (read_rpt_file_footer content df _ f q m Hread) as (Hf & _ & _).
  set (result := match update_values_df with
                 | Some instructions => apply_updates to_numeric df instructions q
                 | None => (df, q)
                 end).
  assert (one_line_table result.1) as Hresult.
  { subst result. destruct update_values_df as [l|]; [|done].
    by apply apply_updates_one_line; [apply Hinstr|]. }
  destruct result as [df2 q2]. intros [= <-].
  assert (proper_lines f) as Hproper.
  { rewrite Hf. apply footer_of_proper, readlines_proper. }
  assert (match f with [] => True | l :: _ => is_footer_start l = true end)
    as Hhead.
  { rewrite Hf. apply footer_of_head. }
  destruct (written_text_read df2 h0 f q2 m Hh0 Hresult Hm Hproper Hhead)
    as (df' & q' & m' & Hwritten).
  by eexists _, _, _, _, _, _, _, _, _.
Qed.

(** X10: the script stops on a file in exactly two cases: the file has
    fewer than two lines (the empty file too), and unpacking the four
    components that the parser returns raises [ValueError]; or a first
    data line with a quote-wrapped value comes before the column
    declaration, and the parser raises [TypeError].  Instructions play no
    part in it. *)
Theorem process_file_aborts (update_values_df : option (list instruction))
    (content : str) (e : script_exn) :
  process_file to_numeric update_values_df content = Aborted e
  ↔ (e = UnpackValueError ∧ (length (readlines content) ≤ 1)%nat)
    ∨ (e = ParserTypeError ∧ stops_early content = true).
Proof.
  unfold process_file.
  pose proof (read_rpt_file_raises content) as Hraise.
  destruct (read_rpt_file content) as [[df h f q|df h f q m]|[]] eqn:Hread.
  - assert ((length (readlines content) ≤ 1)%nat) as Hlen.
    { revert Hread. unfold read_rpt_file.
      destruct (length (readlines content) <=? 1)%nat eqn:Hlen;
        [by apply Nat.leb_le in Hlen|].
      by destruct (parse_lines _ _). }
    split; [intros [= <-]; auto|].
    intros [[-> _]|[_ Hstop]]; [done|]. apply Hraise in Hstop. done.
  - destruct (match update_values_df with Some _ => _ | None => _ end).
    split; [done|].
    intros [[_ Hlen]|[_ Hstop]]; [|by apply Hraise in Hstop].
    apply read_rpt_file_footer in Hread as (_ & _ & ?). lia.
  - split; [intros [= <-]; right; split; [done|by apply Hraise]|].
    intros [[_ Hlen]|[-> _]]; [|done].
    assert (stops_early content = true) as Hstop by by apply Hraise.
    unfold stops_early in Hstop. apply andb_true_iff in Hstop as [Hlen' _].
    apply Nat.leb_le in Hlen'. lia.
Qed.

(** X11: the run stops at the first file on which the script stops.  The
    texts written are the outputs of the files before it, in order; the
    run ends without exception exactly when every file has been written;
    otherwise the exception is the one of the first file that is not
    written. *)
Theorem run_stops_at_first_failure (update_values_df : option (list instruction))
    (files : list str) :
  let result := run to_numeric update_values_df files in
  Forall2 (λ content text,
             process_file to_numeric update_values_df content = Written text)
    (take (length result.1) files) result.1
  ∧ match result.2 with
    | None => length result.1 = length files
    | Some e =>
        ∃ content, files !! length result.1 = Some content
                   ∧ process_file to_numeric update_values_df content = Aborted e
    end.
Proof.
  induction files as [|content files IH]; cbn [run]; [by split; constructor|].
  destruct (process_file to_numeric update_values_df content) as [text|e]
    eqn:Hfile.
  - destruct (run to_numeric update_values_df files) as [texts e'].
    cbn in IH. destruct IH as [Htexts He']. cbn. split; [by constructor|].
    destruct e' as [e'|]; [done|]. by rewrite He'.
  - cbn. split; [constructor|]. by exists content.
Qed.

Lemma actions_none (name : str) (l : list instruction) :
  Forall (λ row, Action row ≠ name) l → actions name l = [].
Proof.
  unfold actions. induction 1 as [|row l Hrow _ IH]; [done|].
  by rewrite filter_cons, decide_False.
Qed.

(** X12: action names are matched exactly.  An instruction sheet in which
    no row has the action add, delete or update (a row with the action Add
    or UPDATE is such a row) changes nothing: the script writes what it
    writes without a sheet. *)
Theorem unknown_actions_ignored (l : list instruction) (content : str) :
  Forall (λ row, Action row ≠ "add" ∧ Action row ≠ "delete"
                 ∧ Action row ≠ "update") l →
  process_file to_numeric (Some l) content
  = process_file to_numeric None content.
Proof.
  intros Hl. unfold process_file.
  destruct (read_rpt_file content) as [[|df h f q m]|[]]; [done| |done].
  unfold apply_updates.
  rewrite !actions_none; [done|..];
    (eapply Forall_impl; [exact Hl|]; by intros row (? & ? & ?)).
Qed.
End script_theorems.

Lemma script_output_read_back_witness :
  ∃ df h f q m df' h' q' m',
    read_rpt_file scenario = Ok (Returned5 df h f q m)
    ∧ read_rpt_file
        (write_rpt_file
           (mkDataFrame (py <$> ["CODE"; "NAME"; "AMT"])
              [py <$> ["5"; "Alice"; "999"]; py <$> ["6"; "Bob"; "200"]])
           (Some (rpt "3 demo|")) [rpt "## end|"] {[ py "NAME" ]} (Some (py "1")))
      = Ok (Returned5 df' h' f q' m').
Proof.
  apply (script_output_read_back decimal_to_numeric
           (Some [update_where None None (Some (py "100"))]) scenario).
  - intros l [= <-]. repeat constructor; by vm_compute; repeat constructor.
  - by vm_compute.
Defined.

Lemma unknown_actions_ignored_witness :
  process_file decimal_to_numeric
    (Some [mkInstruction "Add" "NOTE" "x" None None None;
           mkInstruction "UPDATE" "AMT" "0" None None None]) scenario
  = process_file decimal_to_numeric None scenario.
Proof.
  apply (unknown_actions_ignored decimal_to_numeric).
  repeat constructor; by vm_compute.
Defined.

(** ** The update engine *)

Lemma col_index_Some (df : DataFrame) (c : str) (i : nat) :
  col_index df c = Some i → columns df !! i = Some c.
Proof.
  unfold col_index. destruct (list_find _ _) as [[j x]|] eqn:Hf; [|done].
  intros [= <-]. by apply list_find_Some in Hf as (Hx & -> & _).
Qed.

Lemma col_index_None (df : DataFrame) (c : str) :
  col_index df c = None ↔ has_column df c = false.
Proof.
  unfold col_index, has_column.
  rewrite fmap_None, list_find_None, bool_decide_eq_false, Forall_forall.
  split; [intros Hall Hin; by apply (Hall c)|by intros Hc x Hx ->].
Qed.

Lemma foldl_invariant {A B} (P : A → Prop) (f : A → B → A) (l : list B) (a : A) :
  (∀ a b, P a → P (f a b)) → P a → P (foldl f a l).
Proof. intros Hf. revert a. induction l as [|b l IH]; cbn; auto. Qed.

Lemma fmap_const_replicate {A B} (v : B) (f : A → B) (l : list A) :
  Forall (λ x, f x = v) l → f <$> l = replicate (length l) v.
Proof. induction 1 as [|x l Hx _ IH]; [done|]. cbn. by rewrite Hx, IH. Qed.

(** Every update is an update of the rows of some selection. *)
Lemma get_column_update_rows_other (df : DataFrame) (row : instruction)
    (sel : list str → bool) (c : str) :
  c ≠ ColumnName row →
  get_column (update_rows df row sel) c = get_column df c.
Proof.
  intros Hne. unfold get_column.
  change (col_index (update_rows df row sel) c) with (col_index df c).
  destruct (col_index df c) as [i|] eqn:Hi; [|done].
  unfold update_rows. cbn [rows]. rewrite <- list_fmap_compose.
  apply list_fmap_ext. intros k r _. cbn.
  destruct (sel r); [|done]. unfold set_cell.
  destruct (col_index df (ColumnName row)) as [j|] eqn:Hj; [|done].
  rewrite list_lookup_insert_ne; [done|].
  intros ->. apply col_index_Some in Hi, Hj. congruence.
Qed.

Lemma get_column_update_rows_target (df : DataFrame) (row : instruction)
    (sel : list str → bool) :
  Forall2 (λ old new, new = old ∨ new = NewValue row)
    (get_column df (ColumnName row))
    (get_column (update_rows df row sel) (ColumnName row)).
Proof.
  unfold get_column.
  change (col_index (update_rows df row sel) (ColumnName row))
    with (col_index df (ColumnName row)).
  destruct (col_index df (ColumnName row)) as [i|] eqn:Hi; [|constructor].
  unfold update_rows, set_cell. cbn [rows]. rewrite Hi.
  rewrite <- list_fmap_compose. apply Forall2_fmap.
  induction (rows df) as [|r rs IH]; constructor; [|done]. cbn.
  destruct (sel r); [|by left].
  destruct (decide (i < length r)%nat) as [Hlt|Hge].
  - right. by rewrite list_lookup_insert_eq.
  - left. rewrite !lookup_ge_None_2; [done|lia|rewrite length_insert; lia].
Qed.

Section engine_shape.
Context {num : Type} {Hnum : EqDecision num}.
Variable to_numeric : str → option (numeric num).

Lemma apply_update_update_rows (df : DataFrame) (row : instruction) :
  ∃ sel, apply_update to_numeric df row = update_rows df row sel.
Proof.
  unfold apply_update. destruct (has_column df (ColumnName row)) eqn:Hcol; cbn [negb].
  2: { exists (λ _, false). by rewrite update_rows_none. }
  destruct (LookupColumn row) as [lc|], (LookupValue row) as [lv|],
    (CurrentValue row) as [cv|];
    try (destruct (has_column df lc) eqn:Hlc;
         [|exists (λ _, false); by rewrite update_rows_none]);
    first [ by eexists; apply loc_set_smart_match_and
          | by eexists; apply loc_set_smart_match
          | by eexists; apply set_column_existing ].
Qed.

(** X13: an update instruction changes nothing but cells of its target
    column: the columns and the number of rows stay, every other column
    keeps its cells, and a cell of the target column keeps its value or
    gets [NewValue]. *)
Theorem update_touches_target_only (df : DataFrame) (row : instruction) :
  let df' := apply_update to_numeric df row in
  columns df' = columns df
  ∧ length (rows df') = length (rows df)
  ∧ (∀ c, c ≠ ColumnName row → get_column df' c = get_column df c)
  ∧ Forall2 (λ old new, new = old ∨ new = NewValue row)
      (get_column df (ColumnName row)) (get_column df' (ColumnName row)).
Proof.
  destruct (apply_update_update_rows df row) as [sel Hsel]. cbn zeta.
  rewrite Hsel. split_and!.
  - done.
  - unfold update_rows. cbn [rows]. by rewrite length_fmap.
  - intros c Hc. by apply get_column_update_rows_other.
  - apply get_column_update_rows_target.
Qed.
End engine_shape.
